(** * Smart Waste Finder backend: route handlers and schemas

    A shallow embedding of [main.py] (route handlers, [serialize_doc]) and
    [schemas.py] (the Pydantic models), with the properties the
    specification states about them.

    Modelling conventions.
    - A MongoDB document (a Python [dict]) is a [gmap string value].
    - Python [float]s are modelled by exact rationals ([Q]): arithmetic and
      comparisons are the ideal ones; NaN, infinities, rounding and overflow
      are not represented.
    - Python [str]s are [string]s; case folding is the ASCII one.
    - Handlers run in a state-and-exception monad over the document store.
    - The module [database] is imported by [main.py]; the handlers take its
      two helpers ([create_document], [get_documents]) as parameters. The
      store's own primitives ([find], [insert_one], ...) are modelled on
      lists of documents, and the module [Database] gives the two helpers
      as the specification describes them. *)

From Stdlib Require Import QArith Lqa ZArith Ascii String List Permutation.
From stdpp Require Import gmap strings list fin_maps pretty.

(* ===================================================================== *)
(** ** Values, documents, exceptions *)
(* ===================================================================== *)

(** The field values a stored document holds. [VOid] is a [bson.ObjectId],
    carried by its 24-digit hexadecimal rendering. *)
Inductive value : Type :=
| VNull
| VBool (b : bool)
| VInt (z : Z)
| VNum (q : Q)
| VStr (s : string)
| VOid (hex : string)
| VStrs (l : list string).

Abbreviation doc := (gmap string value).

Inductive exn : Type :=
| Exception (msg : string)
| HTTPException (status_code : Z) (detail : string)
| RequestValidationError (loc : string).

Inductive outcome (A : Type) : Type :=
| Ok (a : A)
| Raise (e : exn).
Arguments Ok {A} a.
Arguments Raise {A} e.

(** Decidable equality, for evaluating closed statements. *)
Global Instance Q_eq_dec : EqDecision Q.
Proof. solve_decision. Defined.
Global Instance value_eq_dec : EqDecision value.
Proof. solve_decision. Defined.
Global Instance exn_eq_dec : EqDecision exn.
Proof. solve_decision. Defined.
Global Instance outcome_eq_dec {A : Type} `{EqDecision A} : EqDecision (outcome A).
Proof. solve_decision. Defined.

(** What the interpreter and the store's regular-expression engine provide
    and this development does not interpret: [float(s)] on a string,
    [str(v)] on values other than strings and ObjectIds, [str(e)] of a
    request-validation error, the URL check behind [HttpUrl], and the
    regular-expression engine on patterns outside the fragment interpreted
    in [Regex] below ([Raise] when it rejects the pattern). *)
Class Builtins : Type := {
  float_of_str : string -> option Q;
  repr : value -> string;
  http_url : string -> bool;
  pcre : string -> string -> outcome (string -> bool)
}.

(** [str(v)] *)
Definition py_str `{Builtins} (v : value) : string :=
  match v with
  | VStr s => s
  | VOid hex => hex
  | _ => repr v
  end.

(** [str(e)] for a raised exception; Starlette renders an [HTTPException]
    as its status code and detail. *)
Definition str_exn (e : exn) : string :=
  match e with
  | Exception msg => msg
  | HTTPException code detail => pretty code +:+ ": " +:+ detail
  | RequestValidationError loc => loc
  end.

(** [float(v)]: [None] when the conversion raises ([TypeError] or
    [ValueError]). *)
Definition py_float `{Builtins} (v : value) : option Q :=
  match v with
  | VNum q => Some q
  | VInt z => Some (inject_Z z)
  | VBool b => Some (if b then 1%Q else 0%Q)
  | VStr s => float_of_str s
  | VNull | VOid _ | VStrs _ => None
  end.

(** [isinstance(v, ObjectId)] replaced by [str(v)] *)
Definition stringify_oid (v : value) : value :=
  match v with
  | VOid hex => VStr hex
  | _ => v
  end.

(** [serialize_doc] (main.py, lines 37-47). *)
Definition serialize_doc `{Builtins} (d : doc) : doc :=
  if Nat.eqb (size d) 0 then d
  else
    let d1 :=
      match d !! "_id" with
      | Some v => <["id" := VStr (py_str v)]> (delete "_id" d)
      | None => d
      end in
    stringify_oid <$> d1.

(* ===================================================================== *)
(** ** [sorted(docs, key=...)] and slicing *)
(* ===================================================================== *)

Section Sorted.
Context {A : Type} (key : A -> Q).

(** [x] is placed before the first element whose key is not smaller:
    elements with equal keys keep their order (the sort is stable). *)
Fixpoint insert_by (x : A) (l : list A) : list A :=
  match l with
  | [] => [x]
  | y :: l' =>
      if Qle_bool (key x) (key y) then x :: y :: l'
      else y :: insert_by x l'
  end.

Definition sorted (l : list A) : list A := foldr insert_by [] l.

End Sorted.

(** [l[:n]] for a Python integer [n] (a negative [n] counts from the end). *)
Definition py_slice_to {A : Type} (l : list A) (n : Z) : list A :=
  if (0 <=? n)%Z then take (Z.to_nat n) l
  else take (length l - Z.to_nat (- n))%nat l.

(* ===================================================================== *)
(** ** The store's regular-expression operator *)
(* ===================================================================== *)

(** [{"$regex": pattern, "$options": options}] hands [pattern] to the
    store's regular-expression engine. The fragment interpreted here is:
    ASCII patterns made of literal characters and [.], with options [""] or
    ["i"]. Every other pattern goes to [pcre]. *)
Module Regex.

Inductive atom : Type :=
| Lit (c : ascii)
| AnyChar.

Definition metacharacters : list ascii :=
  list_ascii_of_string ".\^$*+?()[]{}|".

Definition is_meta (c : ascii) : bool :=
  existsb (Ascii.eqb c) metacharacters.

Definition is_ascii7 (c : ascii) : bool := (N_of_ascii c <? 128)%N.

Fixpoint parse (p : string) : option (list atom) :=
  match p with
  | EmptyString => Some []
  | String c p' =>
      match parse p' with
      | None => None
      | Some r =>
          if Ascii.eqb c "."%char then Some (AnyChar :: r)
          else if is_meta c || negb (is_ascii7 c) then None
          else Some (Lit c :: r)
      end
  end.

(** ASCII lower-casing of one character and of a string. *)
Definition lower (c : ascii) : ascii :=
  let n := N_of_ascii c in
  if ((65 <=? n) && (n <=? 90))%N then ascii_of_N (n + 32) else c.

Fixpoint lower_str (s : string) : string :=
  match s with
  | EmptyString => EmptyString
  | String c s' => String (lower c) (lower_str s')
  end.

Definition newline : ascii := ascii_of_N 10.

Definition atom_match (caseless : bool) (a : atom) (c : ascii) : bool :=
  match a with
  | Lit x => if caseless then Ascii.eqb (lower x) (lower c) else Ascii.eqb x c
  | AnyChar => negb (Ascii.eqb c newline)
  end.

(** The atoms match a prefix of [s]. *)
Fixpoint match_here (caseless : bool) (r : list atom) (s : string) : bool :=
  match r with
  | [] => true
  | a :: r' =>
      match s with
      | EmptyString => false
      | String c s' => atom_match caseless a c && match_here caseless r' s'
      end
  end.

(** Unanchored search: the atoms match at some position of [s]. *)
Fixpoint search (caseless : bool) (r : list atom) (s : string) : bool :=
  match_here caseless r s ||
  match s with
  | EmptyString => false
  | String _ s' => search caseless r s'
  end.

Definition compile `{Builtins} (pattern options : string)
  : outcome (string -> bool) :=
  match parse pattern with
  | Some r =>
      if String.eqb options "" then Ok (search false r)
      else if String.eqb options "i" then Ok (search true r)
      else pcre pattern options
  | None => pcre pattern options
  end.

(** The pattern has only literal characters: no metacharacter, and
    nothing outside ASCII. *)
Definition literal (q : string) : bool :=
  forallb (fun c => negb (is_meta c) && is_ascii7 c) (list_ascii_of_string q).

(** The atoms of a pattern read literally. *)
Definition literals (q : string) : list atom :=
  map Lit (list_ascii_of_string q).

(** The specification's words: [q] occurs in [s] as a substring, ignoring
    case. *)
Definition occurs_ignoring_case (q s : string) : Prop :=
  exists pre post : string,
    lower_str s = (pre +:+ lower_str q +:+ post).

End Regex.

(* ===================================================================== *)
(** ** Filter dictionaries *)
(* ===================================================================== *)

(** The conditions [list_stations] puts on a field. *)
Inductive fcond : Type :=
| FEq (s : string)                       (* field: s *)
| FRegex (pattern options : string)      (* {"$regex": p, "$options": o} *)
| FRange (gte lte : Q).                  (* {"$gte": a, "$lte": b} *)

(** The value under a key of the filter dictionary: a condition on that
    field, or, under ["$or"], a list of one-field dictionaries. *)
Inductive fexpr : Type :=
| FCond (c : fcond)
| FOr (alts : list (string * fcond)).

Abbreviation filter_dict := (gmap string fexpr).

Section FilterSemantics.
Context `{Builtins}.

(** A numeric field value, as the store compares it with a number. *)
Definition numeric (v : value) : option Q :=
  match v with
  | VNum q => Some q
  | VInt z => Some (inject_Z z)
  | _ => None
  end.

(** Does the (possibly absent) field value satisfy the condition? A field
    holding an array satisfies an equality or a regular expression when
    one of its elements does. *)
Definition cond_match (c : fcond) (fv : option value) : bool :=
  match c, fv with
  | FEq s, Some (VStr t) => String.eqb s t
  | FEq s, Some (VStrs l) => existsb (String.eqb s) l
  | FRegex p o, Some (VStr t) =>
      match Regex.compile p o with
      | Ok r => r t
      | Raise _ => false
      end
  | FRegex p o, Some (VStrs l) =>
      match Regex.compile p o with
      | Ok r => existsb r l
      | Raise _ => false
      end
  | FRange lo hi, Some v =>
      match numeric v with
      | Some x => Qle_bool lo x && Qle_bool x hi
      | None => false
      end
  | _, _ => false
  end.

Definition cond_error (c : fcond) : option exn :=
  match c with
  | FRegex p o =>
      match Regex.compile p o with
      | Ok _ => None
      | Raise e => Some e
      end
  | _ => None
  end.

Definition is_operator (k : string) : bool :=
  match k with
  | String c _ => Ascii.eqb c "$"%char
  | EmptyString => false
  end.

Definition first_error (l : list (option exn)) : option exn :=
  foldr (fun o rest => match o with Some e => Some e | None => rest end)
        None l.

(** One entry of the filter dictionary against a document. *)
Definition entry_match (k : string) (e : fexpr) (d : doc) : bool :=
  match e with
  | FCond c => cond_match c (d !! k)
  | FOr alts =>
      String.eqb k "$or" &&
      existsb (fun '(f, c) => cond_match c (d !! f)) alts
  end.

(** The store rejects an ["$or"] that is not a non-empty array, any other
    top-level operator, and a pattern its engine rejects. *)
Definition entry_error (k : string) (e : fexpr) : option exn :=
  if String.eqb k "$or" then
    match e with
    | FOr [] => Some (Exception "$or must be a nonempty array")
    | FOr alts => first_error (map (fun '(_, c) => cond_error c) alts)
    | FCond _ => Some (Exception "$or must be an array")
    end
  else if is_operator k then Some (Exception "unknown top level operator")
  else
    match e with
    | FCond c => cond_error c
    | FOr _ => None
    end.

Definition filter_error (f : filter_dict) : option exn :=
  first_error (map (fun '(k, e) => entry_error k e) (map_to_list f)).

(** A document is selected when it satisfies every entry. *)
Definition doc_matches (f : filter_dict) (d : doc) : bool :=
  bool_decide (map_Forall (fun k e => entry_match k e d = true) f).
End FilterSemantics.

(* ===================================================================== *)
(** ** schemas.py *)
(* ===================================================================== *)

Global Instance outcome_ret : MRet outcome := fun A a => Ok a.
Global Instance outcome_bind : MBind outcome := fun A B f m =>
  match m with
  | Ok a => f a
  | Raise e => Raise e
  end.

(** [StationType = Literal["dump", "recycling", "ewaste", "compost", "hazmat"]] *)
Inductive StationType : Type := dump | recycling | ewaste | compost | hazmat.

Definition StationType_str (t : StationType) : string :=
  match t with
  | dump => "dump"
  | recycling => "recycling"
  | ewaste => "ewaste"
  | compost => "compost"
  | hazmat => "hazmat"
  end.

Definition StationType_of_str (s : string) : option StationType :=
  List.find (fun t => String.eqb (StationType_str t) s)
            [dump; recycling; ewaste; compost; hazmat].

(** A validated [Station]. *)
Record Station : Type := {
  name : string;
  type : StationType;
  address : string;
  latitude : Q;
  longitude : Q;
  rating : option Q;
  review_count : option Z;
  phone : option string;
  website : option string;
  hours : option string;
  services : option (list string)
}.

(** A request body for [Station], after JSON decoding and coercion of each
    field to its declared type: [None] is an absent or null field; for the
    two fields whose default is not [None], the outer option tells absent
    ([None]) from present, the inner one null from a value. *)
Record StationPayload : Type := {
  p_name : option string;
  p_type : option string;
  p_address : option string;
  p_latitude : option Q;
  p_longitude : option Q;
  p_rating : option Q;
  p_review_count : option (option Z);
  p_phone : option string;
  p_website : option string;
  p_hours : option string;
  p_services : option (option (list string))
}.

(** [Field(...)]: the field is required. *)
Definition required {A : Type} (loc : string) (x : option A) : outcome A :=
  match x with
  | Some a => Ok a
  | None => Raise (RequestValidationError loc)
  end.

(** [ge=lo, le=hi] on a float field. *)
Definition check_range (loc : string) (lo hi x : Q) : outcome Q :=
  if Qle_bool lo x && Qle_bool x hi then Ok x
  else Raise (RequestValidationError loc).

(** An optional field: [None] passes, a value is checked. *)
Definition optional {A : Type} (check : A -> outcome A) (x : option A)
  : outcome (option A) :=
  match x with
  | None => Ok None
  | Some a => a' ← check a; mret (Some a')
  end.

(** [ge=0] on an int field. *)
Definition check_ge0 (loc : string) (n : Z) : outcome Z :=
  if (0 <=? n)%Z then Ok n else Raise (RequestValidationError loc).

Definition check_url `{Builtins} (loc : string) (u : string) : outcome string :=
  if http_url u then Ok u else Raise (RequestValidationError loc).

(** Validation of a request body against [Station] (schemas.py, lines
    19-34). *)
Definition Station_validate `{Builtins} (p : StationPayload) : outcome Station :=
  n ← required "name" (p_name p);
  ts ← required "type" (p_type p);
  t ← required "type" (StationType_of_str ts);
  a ← required "address" (p_address p);
  la ← required "latitude" (p_latitude p);
  la ← check_range "latitude" (-90) 90 la;
  lo ← required "longitude" (p_longitude p);
  lo ← check_range "longitude" (-180) 180 lo;
  r ← optional (check_range "rating" 0 5) (p_rating p);
  rc ← optional (check_ge0 "review_count") (default (Some 0%Z) (p_review_count p));
  w ← optional (check_url "website") (p_website p);
  mret {| name := n; type := t; address := a; latitude := la; longitude := lo;
          rating := r; review_count := rc; phone := p_phone p; website := w;
          hours := p_hours p;
          services := default (Some []) (p_services p) |}.

Record Recommendation : Type := {
  title : string;
  description : option string;
  image : option string;
  station_id : option string;
  tags : list string
}.

Inductive FeedbackAction : Type := up | down.

Definition FeedbackAction_str (a : FeedbackAction) : string :=
  match a with
  | up => "up"
  | down => "down"
  end.

Record RecommendationFeedback : Type := {
  item_id : string;
  action : FeedbackAction;
  reason : option string;
  user_id : option string
}.

(** The models a handler passes to [create_document]. *)
Inductive model : Type :=
| MStation (s : Station)
| MRecommendation (r : Recommendation)
| MRecommendationFeedback (f : RecommendationFeedback).

Definition opt_value {A : Type} (f : A -> value) (x : option A) : value :=
  match x with
  | Some a => f a
  | None => VNull
  end.

(** [model.model_dump()]: every declared field, [None] as null. *)
Definition model_dump (m : model) : doc :=
  match m with
  | MStation s =>
      <["name" := VStr (name s)]>
      (<["type" := VStr (StationType_str (type s))]>
      (<["address" := VStr (address s)]>
      (<["latitude" := VNum (latitude s)]>
      (<["longitude" := VNum (longitude s)]>
      (<["rating" := opt_value VNum (rating s)]>
      (<["review_count" := opt_value VInt (review_count s)]>
      (<["phone" := opt_value VStr (phone s)]>
      (<["website" := opt_value VStr (website s)]>
      (<["hours" := opt_value VStr (hours s)]>
      (<["services" := opt_value VStrs (services s)]> ∅))))))))))
  | MRecommendation r =>
      <["title" := VStr (title r)]>
      (<["description" := opt_value VStr (description r)]>
      (<["image" := opt_value VStr (image r)]>
      (<["station_id" := opt_value VStr (station_id r)]>
      (<["tags" := VStrs (tags r)]> ∅))))
  | MRecommendationFeedback f =>
      <["item_id" := VStr (item_id f)]>
      (<["action" := VStr (FeedbackAction_str (action f))]>
      (<["reason" := opt_value VStr (reason f)]>
      (<["user_id" := opt_value VStr (user_id f)]> ∅)))
  end.

(* ===================================================================== *)
(** ** The document store *)
(* ===================================================================== *)

(** The collections, each a list of documents in insertion order, and the
    counter new ObjectIds are drawn from. *)
Record database : Type := {
  collections : gmap string (list doc);
  oid_clock : N
}.

Global Instance database_eq_dec : EqDecision database.
Proof. solve_decision. Defined.

(** A handler step: it reads and updates the store, and returns or
    raises. *)
Definition M (A : Type) : Type := database -> outcome A * database.

Global Instance M_ret : MRet M := fun A a db => (Ok a, db).
Global Instance M_bind : MBind M := fun A B f m db =>
  match m db with
  | (Ok a, db') => f a db'
  | (Raise e, db') => (Raise e, db')
  end.

Definition raise {A : Type} (e : exn) : M A := fun db => (Raise e, db).

Definition lift {A : Type} (o : outcome A) : M A := fun db => (o, db).

(** [try: body except Exception as e: handler(e)] *)
Definition try_except {A : Type} (body : M A) (handler : exn -> M A) : M A :=
  fun db =>
    match body db with
    | (Ok a, db') => (Ok a, db')
    | (Raise e, db') => handler e db'
    end.

(** [db[name]] *)
Definition collection (db : database) (name : string) : list doc :=
  default [] (collections db !! name).

(** [db[name].count_documents({})] *)
Definition count_documents (name : string) : M nat :=
  fun db => (Ok (length (collection db name)), db).

Definition has_oid (hex : string) (d : doc) : bool :=
  match d !! "_id" with
  | Some (VOid h) => String.eqb h hex
  | _ => false
  end.

(** [db[name].find_one({"_id": oid})] *)
Definition find_one (name : string) (oid : string) : M (option doc) :=
  fun db => (Ok (List.find (has_oid oid) (collection db name)), db).

Definition hex_digits : list ascii := list_ascii_of_string "0123456789abcdef".

Definition hex_digit (n : N) : ascii :=
  nth (N.to_nat n) hex_digits "0"%char.

Fixpoint hex_acc (k : nat) (n : N) (acc : string) : string :=
  match k with
  | O => acc
  | S k' => hex_acc k' (n / 16)%N (String (hex_digit (n mod 16)%N) acc)
  end.

(** The 24 hexadecimal digits of a 12-byte ObjectId. *)
Definition hex24 (n : N) : string := hex_acc 24 n "".

Definition is_hex (c : ascii) : bool :=
  existsb (Ascii.eqb (Regex.lower c)) hex_digits.

(** [ObjectId(s)] for a string [s]: it must be 24 hexadecimal digits. *)
Definition ObjectId (s : string) : outcome string :=
  if Nat.eqb (String.length s) 24 && forallb is_hex (list_ascii_of_string s)
  then Ok (Regex.lower_str s)
  else Raise (Exception ("'" +:+ s +:+ "' is not a valid ObjectId, it must be a 12-byte input or a 24-character hex string")).

(** [db[name].insert_one(d)]: the document gets a new ["_id"] and goes to
    the end of the collection. *)
Definition insert_one (name : string) (d : doc) : M string :=
  fun db =>
    let oid := hex24 (oid_clock db) in
    (Ok oid,
     {| collections :=
          <[name := collection db name ++ [<["_id" := VOid oid]> d]]>
            (collections db);
        oid_clock := N.succ (oid_clock db) |}).

(** [cursor.limit(n)]: a limit of 0 is no limit, a negative limit counts
    as its absolute value. *)
Definition cursor_limit (n : Z) (found : list doc) : list doc :=
  if (n =? 0)%Z then found else take (Z.abs_nat n) found.

(** [db[name].find(f)], with an optional [.limit(n)]. *)
Definition find `{Builtins} (name : string) (f : filter_dict) (limit : option Z)
  : M (list doc) :=
  fun db =>
    match filter_error f with
    | Some e => (Raise e, db)
    | None =>
        let found := List.filter (doc_matches f) (collection db name) in
        (Ok (match limit with
             | Some n => cursor_limit n found
             | None => found
             end), db)
    end.

Module Database.

(** Modelled from the spec: [create_document] of the module [database],
    which is not among the sources. The specification has every write as
    a direct pass-through to the store's insert primitive ("Create
    station: validate against schema, insert, return stored document");
    the call returns the new document's id as a string. *)
Definition create_document (name : string) (m : model) : M string :=
  insert_one name (model_dump m).

(** Modelled from the spec: [get_documents] of the module [database],
    which is not among the sources. The specification has every query as
    a direct pass-through to the store's filter/find primitive, with a
    capped result limit. *)
Definition get_documents `{Builtins} (name : string) (f : filter_dict)
    (limit : option Z) : M (list doc) :=
  find name f limit.

End Database.

(* ===================================================================== *)
(** ** main.py: the route handlers *)
(* ===================================================================== *)

(** [Query(default=d, ge=lo, le=hi)] on an [int] parameter: an absent
    parameter takes the default, a value out of range is refused by the
    framework before the handler runs. *)
Definition Query (loc : string) (d lo hi : Z) (raw : option Z) : outcome Z :=
  match raw with
  | None => Ok d
  | Some n =>
      if ((lo <=? n) && (n <=? hi))%Z then Ok n
      else Raise (RequestValidationError loc)
  end.

(** The status of the response the framework sends: the route's declared
    status on return, the exception's own status for an [HTTPException],
    422 for a request that fails validation, 500 otherwise. *)
Definition response_status {A : Type} (declared : Z) (o : outcome A) : Z :=
  match o with
  | Ok _ => declared
  | Raise (HTTPException code _) => code
  | Raise (RequestValidationError _) => 422
  | Raise (Exception _) => 500
  end.

(** Truth value of an [Optional[str]]: [None] and [""] are false. *)
Definition truthy_str (s : option string) : bool :=
  match s with
  | Some (String _ _) => true
  | _ => false
  end.

(** Truth value of an [Optional[float]]: [None] and zero are false. *)
Definition truthy_float (x : option Q) : bool :=
  match x with
  | Some q => negb (Qeq_bool q 0)
  | None => false
  end.

Record SeedResult : Type := { inserted : Z }.

Definition sample_stations : list Station :=
  [ {| name := "GreenCycle Center"; type := recycling; address := "123 Elm St";
       latitude := 377749 # 10000; longitude := - (1224194 # 10000);
       rating := Some (47 # 10); review_count := Some 128%Z; phone := None;
       website := None; hours := None;
       services := Some ["plastic"; "paper"; "metal"] |};
    {| name := "City Dump Yard"; type := dump; address := "45 Industrial Rd";
       latitude := 3778 # 100; longitude := - (12241 # 100);
       rating := Some (41 # 10); review_count := Some 63%Z; phone := None;
       website := None; hours := None;
       services := Some ["bulk"; "construction"] |};
    {| name := "Tech E-Waste Depot"; type := ewaste; address := "9 Silicon Ave";
       latitude := 3776 # 100; longitude := - (12242 # 100);
       rating := Some (48 # 10); review_count := Some 204%Z; phone := None;
       website := None; hours := None;
       services := Some ["electronics"; "batteries"] |} ].

Definition sample_recommendations : list Recommendation :=
  [ {| title := "Recycle plastics today";
       description := Some "Drop-off at GreenCycle before 6pm";
       image := None; station_id := None; tags := ["recycling"; "plastic"] |};
    {| title := "Dispose e-waste safely";
       description := Some "Tech Depot accepts laptops";
       image := None; station_id := None; tags := ["ewaste"] |} ].

Section Handlers.
Context `{Builtins}.

(** [from database import db, create_document, get_documents] *)
Variable create_document : string -> model -> M string.
Variable get_documents : string -> filter_dict -> option Z -> M (list doc).

(** The filter dictionary [list_stations] builds (main.py, lines
    123-140). *)
Definition list_stations_filter (type query : option string)
    (lat lng radius_km : option Q) : filter_dict :=
  let filter_dict : filter_dict := ∅ in
  let filter_dict :=
    match type with
    | Some t =>
        if truthy_str type then <["type" := FCond (FEq t)]> filter_dict
        else filter_dict
    | None => filter_dict
    end in
  let filter_dict :=
    match query with
    | Some q =>
        if truthy_str query then
          <["$or" := FOr [("name", FRegex q "i");
                          ("address", FRegex q "i")]]> filter_dict
        else filter_dict
    | None => filter_dict
    end in
  match lat, lng, radius_km with
  | Some lat, Some lng, Some r =>
      if truthy_float radius_km then
        let dlat := (r / 111)%Q in
        let dlng := (r / 111)%Q in
        <["longitude" := FCond (FRange (lng - dlng) (lng + dlng))]>
          (<["latitude" := FCond (FRange (lat - dlat) (lat + dlat))]>
             filter_dict)
      else filter_dict
  | _, _, _ => filter_dict
  end.

(** [GET /api/stations] (main.py, lines 114-143). *)
Definition list_stations (type query : option string) (limit : option Z)
    (lat lng radius_km : option Q) : M (list doc) :=
  limit ← lift (Query "limit" 50 1 200 limit);
  docs ← get_documents "station"
           (list_stations_filter type query lat lng radius_km) (Some limit);
  mret (map serialize_doc docs).

(** [POST /api/stations], status 201 (main.py, lines 146-153). A missing
    document ([None]) is false, so [serialize_doc] returns it as it is. *)
Definition create_station (payload : Station) : M (option doc) :=
  try_except
    (inserted_id ← create_document "station" (MStation payload);
     oid ← lift (ObjectId inserted_id);
     doc ← find_one "station" oid;
     mret (serialize_doc <$> doc))
    (fun e => raise (HTTPException 400 (str_exn e))).

(** The key of the sort in [nearby_stations] (main.py, lines 164-168). *)
Definition dist2 (lat lng : Q) (d : doc) : Q :=
  match py_float (default (VInt 0) (d !! "latitude")) with
  | Some a =>
      match py_float (default (VInt 0) (d !! "longitude")) with
      | Some b => ((a - lat) ^ 2 + (b - lng) ^ 2)%Q
      | None => 1000000000000%Q
      end
  | None => 1000000000000%Q
  end.

(** [GET /api/stations/nearby] (main.py, lines 156-170). *)
Definition nearby_stations (lat lng : Q) (limit : option Z) : M (list doc) :=
  limit ← lift (Query "limit" 10 1 100 limit);
  docs ← get_documents "station" ∅ None;
  let sorted_docs := py_slice_to (sorted (dist2 lat lng) docs) limit in
  mret (map serialize_doc sorted_docs).

(** [GET /api/recommendations] (main.py, lines 174-177). *)
Definition list_recommendations (limit : option Z) : M (list doc) :=
  limit ← lift (Query "limit" 20 1 100 limit);
  docs ← get_documents "recommendation" ∅ (Some limit);
  mret (map serialize_doc docs).

(** [POST /api/recommendations/feedback], status 201 (main.py, lines
    180-187). *)
Definition submit_feedback (payload : RecommendationFeedback) : M (option doc) :=
  try_except
    (inserted_id ← create_document "recommendationfeedback"
                     (MRecommendationFeedback payload);
     oid ← lift (ObjectId inserted_id);
     doc ← find_one "recommendationfeedback" oid;
     mret (serialize_doc <$> doc))
    (fun e => raise (HTTPException 400 (str_exn e))).

(** [for m in ms: create_document(name, m); inserted += 1] *)
Fixpoint insert_each (name : string) (ms : list model) (inserted : Z) : M Z :=
  match ms with
  | [] => mret inserted
  | m :: ms' =>
      _ ← create_document name m;
      insert_each name ms' (inserted + 1)%Z
  end.

(** [POST /api/seed] (main.py, lines 194-215). *)
Definition seed_sample_data : M SeedResult :=
  let inserted := 0%Z in
  n ← count_documents "station";
  inserted ←
    (if Nat.eqb n 0 then
       insert_each "station" (map MStation sample_stations) inserted
     else mret inserted);
  n ← count_documents "recommendation";
  inserted ←
    (if Nat.eqb n 0 then
       insert_each "recommendation"
         (map MRecommendation sample_recommendations) inserted
     else mret inserted);
  mret {| inserted := inserted |}.

(** The request layer of [POST /api/stations]: the body is validated
    against [Station] before [create_station] runs. *)
Definition post_station (body : StationPayload) : M (option doc) :=
  payload ← lift (Station_validate body);
  create_station payload.
End Handlers.

(** Case analysis on the branches taken when the filter is built. *)
Ltac filter_cases type query lat lng radius_km :=
  unfold list_stations_filter;
  destruct lat as [?la|], lng as [?ln|], radius_km as [?r|];
  try match goal with
      | |- context [truthy_float (Some ?r)] => destruct (truthy_float (Some r))
      end;
  destruct query as [?q|];
  try match goal with
      | |- context [truthy_str (Some ?q)] => destruct (truthy_str (Some q))
      end;
  destruct type as [?t|];
  try match goal with
      | |- context [truthy_str (Some ?t)] => destruct (truthy_str (Some t))
      end.

(* ===================================================================== *)
(** ** Closed inputs for the examples *)
(* ===================================================================== *)

(** An environment for the closed examples: they never reach these
    functions on an input where the choice matters. *)
Definition example_builtins : Builtins :=
  {| float_of_str := fun _ => None;
     repr := fun _ => "";
     http_url := fun _ => true;
     pcre := fun _ _ => Raise (Exception "Regular expression is invalid") |}.

Definition empty_db : database := {| collections := ∅; oid_clock := 0 |}.

(** The store after one call of the seed endpoint on an empty store. *)
Definition seeded_db : database :=
  snd (seed_sample_data Database.create_document empty_db).

(** A [create_document] whose insert raises. *)
Definition failing_create_document (msg : string) (name : string) (m : model)
  : M string :=
  raise (Exception msg).

(* ===================================================================== *)
(** ** The specification's notions *)
(* ===================================================================== *)

(** The coordinates of a station document: its numeric ["latitude"] and
    ["longitude"] fields. *)
Definition coordinates (d : doc) : option (Q * Q) :=
  match d !! "latitude", d !! "longitude" with
  | Some v, Some w =>
      match numeric v, numeric w with
      | Some a, Some b => Some (a, b)
      | _, _ => None
      end
  | _, _ => None
  end.




(** A placeholder station, for taking the head of the samples. *)
Definition far_station : Station :=
  {| name := ""; type := dump; address := ""; latitude := 0; longitude := 0;
     rating := None; review_count := None; phone := None; website := None;
     hours := None; services := None |}.



(** The request body [body] with its coordinates replaced. *)
Definition with_coordinates (body : StationPayload) (la lo : Q) : StationPayload :=
  {| p_name := p_name body; p_type := p_type body; p_address := p_address body;
     p_latitude := Some la; p_longitude := Some lo;
     p_rating := p_rating body; p_review_count := p_review_count body;
     p_phone := p_phone body; p_website := p_website body;
     p_hours := p_hours body; p_services := p_services body |}.

(** A request body for the second sample station. *)
Definition dump_yard_body : StationPayload :=
  {| p_name := Some "City Dump Yard"; p_type := Some "dump";
     p_address := Some "45 Industrial Rd";
     p_latitude := Some (3778 # 100); p_longitude := Some (- (12241 # 100));
     p_rating := Some (41 # 10); p_review_count := Some (Some 63%Z);
     p_phone := None; p_website := None; p_hours := None;
     p_services := Some (Some ["bulk"; "construction"]) |}.

Definition thumbs_up : RecommendationFeedback :=
  {| item_id := "000000000000000000000003"; action := up;
     reason := None; user_id := None |}.

(** The computation can only fail with a request-validation error. *)
Definition validation_errors_only {A : Type} (o : outcome A) : Prop :=
  forall e, o = Raise e -> exists loc, e = RequestValidationError loc.


(* ===================================================================== *)
(** ** The remaining helpers, routes and schemas *)
(* ===================================================================== *)





(** A request body for [RecommendationFeedback], after JSON decoding. *)
Record FeedbackPayload : Type := {
  fp_item_id : option string;
  fp_action : option string;
  fp_reason : option string;
  fp_user_id : option string
}.

Definition FeedbackAction_of_str (s : string) : option FeedbackAction :=
  List.find (fun a => String.eqb (FeedbackAction_str a) s) [up; down].

(** Validation against [RecommendationFeedback] (schemas.py, lines
    47-55). *)
Definition RecommendationFeedback_validate (p : FeedbackPayload)
  : outcome RecommendationFeedback :=
  i ← required "item_id" (fp_item_id p);
  s ← required "action" (fp_action p);
  a ← required "action" (FeedbackAction_of_str s);
  mret {| item_id := i; action := a; reason := fp_reason p;
          user_id := fp_user_id p |}.



Section RequestLayer.
Context `{Builtins}.
Variable create_document : string -> model -> M string.

(** The request layer of [POST /api/recommendations/feedback]. *)
Definition post_feedback (body : FeedbackPayload) : M (option doc) :=
  payload ← lift (RecommendationFeedback_validate body);
  submit_feedback create_document payload.
End RequestLayer.

(** From [db] to [db1] every collection only gained documents at its end,
    none if it held one already or is neither the stations nor the
    recommendations. *)
Definition appended_only (db db1 : database) : Prop :=
  forall name,
    exists added,
      collection db1 name = collection db name ++ added /\
      (collection db name ≠ [] -> added = []) /\
      (name ≠ "station" -> name ≠ "recommendation" -> added = []).




(* ===================================================================== *)
(** ** Sorting by a key *)
(* ===================================================================== *)

Section SortedFacts.
Context {A : Type} (key : A -> Q).











End SortedFacts.

Lemma py_slice_to_take {A : Type} (l : list A) (n : Z) :
  (0 <= n)%Z -> py_slice_to l n = take (Z.to_nat n) l.
Proof.
  intros Hn. unfold py_slice_to.
  destruct (0 <=? n)%Z eqn:E; [reflexivity|]. apply Z.leb_gt in E. lia.
Qed.

Lemma cursor_limit_positive (n : Z) (found : list doc) :
  (1 <= n)%Z -> cursor_limit n found = take (Z.to_nat n) found.
Proof.
  intros Hn. unfold cursor_limit.
  destruct (n =? 0)%Z eqn:E; [apply Z.eqb_eq in E; lia|].
  f_equal. lia.
Qed.

Lemma Query_range (loc : string) (d lo hi : Z) (raw : option Z) (n : Z) :
  (lo <= d <= hi)%Z -> Query loc d lo hi raw = Ok n -> (lo <= n <= hi)%Z.
Proof.
  intros Hd. unfold Query. destruct raw as [m|].
  - destruct ((lo <=? m)%Z && (m <=? hi)%Z) eqn:E; [|discriminate].
    intros [= <-]. apply andb_true_iff in E as [E1 E2].
    apply Z.leb_le in E1, E2. lia.
  - intros [= <-]. exact Hd.
Qed.

(* ===================================================================== *)
(** ** [serialize_doc] *)
(* ===================================================================== *)

Section SerializeFacts.
Context `{Builtins}.

Lemma size_zero_empty (d : doc) : Nat.eqb (size d) 0 = true -> d = ∅.
Proof. intros E. apply Nat.eqb_eq in E. now apply map_size_empty_iff. Qed.

Lemma serialize_doc_lookup_other (d : doc) (k : string) :
  k ≠ "_id" -> k ≠ "id" ->
  serialize_doc d !! k = stringify_oid <$> d !! k.
Proof.
  intros Hk1 Hk2. unfold serialize_doc.
  destruct (Nat.eqb (size d) 0) eqn:E.
  - apply size_zero_empty in E. subst d. now rewrite lookup_empty.
  - rewrite lookup_fmap. destruct (d !! "_id") as [v|]; [|reflexivity].
    rewrite lookup_insert_ne by congruence.
    now rewrite lookup_delete_ne by congruence.
Qed.

Lemma numeric_stringify (v : value) (a : Q) :
  numeric v = Some a -> stringify_oid v = v.
Proof. destruct v; simpl; congruence. Qed.

(** Numeric coordinates go through serialization unchanged. *)
Lemma serialize_doc_coordinates (d : doc) (a b : Q) :
  coordinates d = Some (a, b) -> coordinates (serialize_doc d) = Some (a, b).
Proof.
  unfold coordinates. intros Hc.
  rewrite !serialize_doc_lookup_other by discriminate.
  destruct (d !! "latitude") as [v|]; [|discriminate].
  destruct (d !! "longitude") as [w|]; [|discriminate]. simpl.
  destruct (numeric v) as [a'|] eqn:Ev; [|discriminate].
  destruct (numeric w) as [b'|] eqn:Ew; [|discriminate].
  rewrite (numeric_stringify _ _ Ev), (numeric_stringify _ _ Ew).
  now rewrite Ev, Ew.
Qed.



End SerializeFacts.

(** C6. A document that has an ["_id"] is serialized without it and with an
    ["id"] field holding the string form of that ["_id"]; every other field
    keeps its value, an ObjectId value being replaced by its string. *)
Theorem serialize_doc_renames_id `{Builtins} (d : doc) (v : value) :
  d !! "_id" = Some v ->
  serialize_doc d !! "_id" = None /\
  serialize_doc d !! "id" = Some (VStr (py_str v)) /\
  (forall k : string, k ≠ "_id" -> k ≠ "id" ->
     serialize_doc d !! k = stringify_oid <$> d !! k) /\
  (forall (k : string) (w : value), k ≠ "_id" -> k ≠ "id" ->
     d !! k = Some w ->
     serialize_doc d !! k =
       Some (match w with VOid hex => VStr hex | _ => w end)).
Proof.
  intros Hid.
  assert (Hne : Nat.eqb (size d) 0 = false).
  { destruct (Nat.eqb (size d) 0) eqn:E; [|reflexivity].
    apply size_zero_empty in E. subst d. now rewrite lookup_empty in Hid. }
  repeat split.
  - unfold serialize_doc. rewrite Hne, Hid, lookup_fmap.
    rewrite lookup_insert_ne by discriminate.
    now rewrite lookup_delete_eq.
  - unfold serialize_doc. rewrite Hne, Hid, lookup_fmap.
    now rewrite lookup_insert_eq.
  - intros k Hk1 Hk2. now apply serialize_doc_lookup_other.
  - intros k w Hk1 Hk2 Hw.
    rewrite serialize_doc_lookup_other by assumption.
    rewrite Hw. reflexivity.
Qed.

Lemma serialize_doc_renames_id_witness :
  let d : doc := <["_id" := VOid "000000000000000000000001"]>
                   (<["name" := VStr "City Dump Yard"]> ∅) in
  d !! "_id" = Some (VOid "000000000000000000000001") /\
  @serialize_doc example_builtins d !! "id"
    = Some (VStr "000000000000000000000001") /\
  @serialize_doc example_builtins d !! "name" = Some (VStr "City Dump Yard").
Proof.
  intros d.
  assert (Hid : d !! "_id" = Some (VOid "000000000000000000000001"))
    by compute_done.
  split; [exact Hid|].
  destruct (@serialize_doc_renames_id example_builtins d _ Hid)
    as (_ & Hnew & _ & Hother).
  split; [exact Hnew|].
  apply (Hother "name" (VStr "City Dump Yard")); [discriminate | discriminate |].
  compute_done.
Defined.

(* ===================================================================== *)
(** ** Nearby stations *)
(* ===================================================================== *)

Section NearbyFacts.
Context `{Builtins}.
Variable get_documents : string -> filter_dict -> option Z -> M (list doc).

(** The handler, run: the documents fetched, sorted by [dist2], cut at
    the limit, serialized. *)
Lemma nearby_stations_run (lat lng : Q) (limit : option Z) (n : Z)
    (docs : list doc) (db db' : database) :
  Query "limit" 10 1 100 limit = Ok n ->
  get_documents "station" ∅ None db = (Ok docs, db') ->
  nearby_stations get_documents lat lng limit db =
    (Ok (map serialize_doc (take (Z.to_nat n) (sorted (dist2 lat lng) docs))),
     db').
Proof.
  intros Hq Hg.
  assert (Hn : (1 <= n <= 100)%Z) by (apply (Query_range "limit" 10 1 100 limit n); [lia | exact Hq]).
  unfold nearby_stations, mbind, M_bind, lift, mret, M_ret.
  rewrite Hq, Hg. rewrite py_slice_to_take by lia. reflexivity.
Qed.

Lemma nearby_stations_refused (lat lng : Q) (limit : option Z) (e : exn)
    (db : database) :
  Query "limit" 10 1 100 limit = Raise e ->
  nearby_stations get_documents lat lng limit db = (Raise e, db).
Proof.
  intros Hq. unfold nearby_stations, mbind, M_bind, lift. now rewrite Hq.
Qed.
End NearbyFacts.





(* ===================================================================== *)
(** ** Filters *)
(* ===================================================================== *)

Section FilterFacts.
Context `{Builtins}.

Lemma first_error_None (l : list (option exn)) :
  first_error l = None <-> Forall (fun o => o = None) l.
Proof.
  induction l as [|o l IH]; simpl.
  - split; [constructor | reflexivity].
  - destruct o as [e|].
    + split; [discriminate | inversion 1; discriminate].
    + rewrite IH. split; [now constructor | now inversion 1].
Qed.

Lemma filter_error_None (f : filter_dict) :
  filter_error f = None <->
  forall k e, f !! k = Some e -> entry_error k e = None.
Proof.
  unfold filter_error. rewrite first_error_None, Forall_forall. split.
  - intros Hall k e Hke. apply (Hall (entry_error k e)).
    apply (list_elem_of_fmap_2 (fun '(k, e) => entry_error k e) _ (k, e)).
    now apply elem_of_map_to_list.
  - intros Hall o Ho. apply list_elem_of_fmap in Ho as ([k e] & -> & Hin).
    apply elem_of_map_to_list in Hin. now apply Hall.
Qed.

Lemma doc_matches_true (f : filter_dict) (d : doc) :
  doc_matches f d = true <->
  forall k e, f !! k = Some e -> entry_match k e d = true.
Proof.
  unfold doc_matches. rewrite bool_decide_eq_true.
  apply map_Forall_lookup.
Qed.


(** The entries of the filter dictionary [list_stations] builds. *)
Lemma list_stations_filter_type (type query : option string)
    (lat lng radius_km : option Q) :
  list_stations_filter type query lat lng radius_km !! "type" =
    match type with
    | Some t => if truthy_str type then Some (FCond (FEq t)) else None
    | None => None
    end.
Proof.
  filter_cases type query lat lng radius_km; now simplify_map_eq.
Qed.


Lemma list_stations_filter_latitude (type query : option string)
    (lat lng radius_km : option Q) :
  list_stations_filter type query lat lng radius_km !! "latitude" =
    match lat, lng, radius_km with
    | Some la, Some ln, Some r =>
        if truthy_float radius_km
        then Some (FCond (FRange (la - r / 111) (la + r / 111)))
        else None
    | _, _, _ => None
    end.
Proof.
  filter_cases type query lat lng radius_km; now simplify_map_eq.
Qed.

Lemma list_stations_filter_longitude (type query : option string)
    (lat lng radius_km : option Q) :
  list_stations_filter type query lat lng radius_km !! "longitude" =
    match lat, lng, radius_km with
    | Some la, Some ln, Some r =>
        if truthy_float radius_km
        then Some (FCond (FRange (ln - r / 111) (ln + r / 111)))
        else None
    | _, _, _ => None
    end.
Proof.
  filter_cases type query lat lng radius_km; now simplify_map_eq.
Qed.

End FilterFacts.

(* ===================================================================== *)
(** ** List stations *)
(* ===================================================================== *)

Section ListStationsFacts.
Context `{Builtins}.

(** The handler over the store, run. *)
Lemma list_stations_run (type query : option string) (limit : option Z)
    (n : Z) (lat lng radius_km : option Q) (db : database) :
  Query "limit" 50 1 200 limit = Ok n ->
  list_stations Database.get_documents type query limit lat lng radius_km db =
    let f := list_stations_filter type query lat lng radius_km in
    match filter_error f with
    | Some e => (Raise e, db)
    | None =>
        (Ok (map serialize_doc
               (take (Z.to_nat n)
                  (List.filter (doc_matches f) (collection db "station")))),
         db)
    end.
Proof.
  intros Hq.
  assert (Hn : (1 <= n <= 200)%Z)
    by (apply (Query_range "limit" 50 1 200 limit n); [lia | exact Hq]).
  unfold list_stations, mbind, M_bind, lift, Database.get_documents, find.
  rewrite Hq. simpl.
  destruct (filter_error (list_stations_filter type query lat lng radius_km));
    [reflexivity|].
  now rewrite cursor_limit_positive by lia.
Qed.

Lemma list_stations_refused (type query : option string) (limit : option Z)
    (e : exn) (lat lng radius_km : option Q) (db : database)
    (gd : string -> filter_dict -> option Z -> M (list doc)) :
  Query "limit" 50 1 200 limit = Raise e ->
  list_stations gd type query limit lat lng radius_km db = (Raise e, db).
Proof.
  intros Hq. unfold list_stations, mbind, M_bind, lift. now rewrite Hq.
Qed.

Lemma list_stations_inv (type query : option string) (limit : option Z)
    (lat lng radius_km : option Q) (db db' : database) (out : list doc) :
  list_stations Database.get_documents type query limit lat lng radius_km db
    = (Ok out, db') ->
  let f := list_stations_filter type query lat lng radius_km in
  exists n : Z,
    Query "limit" 50 1 200 limit = Ok n /\
    filter_error f = None /\
    db' = db /\
    out = map serialize_doc
            (take (Z.to_nat n)
               (List.filter (doc_matches f) (collection db "station"))).
Proof.
  intros Hrun f.
  destruct (Query "limit" 50 1 200 limit) as [n|e] eqn:Hq.
  - rewrite (list_stations_run _ _ _ _ _ _ _ _ Hq) in Hrun. simpl in Hrun.
    fold f in Hrun. exists n.
    destruct (filter_error f); [discriminate|].
    injection Hrun as <- <-. auto.
  - rewrite (list_stations_refused _ _ _ _ _ _ _ _ _ Hq) in Hrun.
    discriminate.
Qed.

(** A selected document, seen through its serialization. *)
Lemma returned_was_selected (f : filter_dict) (n : nat) (docs : list doc)
    (d : doc) :
  In d (map serialize_doc (take n (List.filter (doc_matches f) docs))) ->
  exists d0, d = serialize_doc d0 /\ In d0 docs /\ doc_matches f d0 = true.
Proof.
  intros Hd. apply in_map_iff in Hd as (d0 & <- & Hd0).
  exists d0. split; [reflexivity|].
  apply list_elem_of_In, elem_of_take in Hd0 as (i & Hi & _).
  apply list_elem_of_lookup_2, list_elem_of_In, filter_In in Hi.
  exact Hi.
Qed.

Lemma truthy_float_nonzero (r : Q) :
  truthy_float (Some r) = true <-> ~ (r == 0)%Q.
Proof.
  unfold truthy_float. rewrite negb_true_iff. split.
  - intros Hf Hz. apply Qeq_bool_iff in Hz. congruence.
  - intros Hz. destruct (Qeq_bool r 0) eqn:E; [|reflexivity].
    apply Qeq_bool_iff in E. contradiction.
Qed.
End ListStationsFacts.




(** C9. The filter built by list-stations carries the coordinate
    conditions exactly when [lat] and [lng] are both provided and
    [radius_km] is provided and non-zero; a request with a zero radius is
    handled exactly as the same request without a radius. *)
Theorem list_stations_zero_radius `{Builtins}
    (get_documents : string -> filter_dict -> option Z -> M (list doc))
    (type query : option string) (limit : option Z)
    (lat lng radius_km : option Q) (db : database) :
  (is_Some (list_stations_filter type query lat lng radius_km !! "latitude") <->
   is_Some lat /\ is_Some lng /\
   exists r, radius_km = Some r /\ ~ (r == 0)%Q) /\
  (is_Some (list_stations_filter type query lat lng radius_km !! "longitude") <->
   is_Some lat /\ is_Some lng /\
   exists r, radius_km = Some r /\ ~ (r == 0)%Q) /\
  (forall r : Q, (r == 0)%Q ->
     list_stations_filter type query lat lng (Some r)
       = list_stations_filter type query lat lng None /\
     list_stations get_documents type query limit lat lng (Some r) db
       = list_stations get_documents type query limit lat lng None db).
Proof.
  assert (Hbox : forall g : Q -> Q -> Q -> fexpr,
            is_Some (match lat, lng, radius_km with
                     | Some la, Some ln, Some r =>
                         if truthy_float radius_km then Some (g la ln r)
                         else None
                     | _, _, _ => None
                     end) <->
            is_Some lat /\ is_Some lng /\
            exists r, radius_km = Some r /\ ~ (r == 0)%Q).
  { intros g. split.
    - intros Hs. destruct lat as [la|], lng as [ln|], radius_km as [r|];
        try (now destruct Hs).
      destruct (truthy_float (Some r)) eqn:E; [|now destruct Hs].
      repeat split; eauto. exists r. split; [reflexivity|].
      now apply truthy_float_nonzero.
    - intros ([la ->] & [ln ->] & r & -> & Hr).
      apply truthy_float_nonzero in Hr. rewrite Hr. eauto. }
  split; [|split].
  - rewrite list_stations_filter_latitude.
    apply (Hbox (fun la ln r => FCond (FRange (la - r / 111) (la + r / 111)))).
  - rewrite list_stations_filter_longitude.
    apply (Hbox (fun la ln r => FCond (FRange (ln - r / 111) (ln + r / 111)))).
  - intros r Hr.
    assert (Hf : list_stations_filter type query lat lng (Some r)
                 = list_stations_filter type query lat lng None).
    { assert (E : truthy_float (Some r) = false).
      { destruct (truthy_float (Some r)) eqn:E; [|reflexivity].
        apply truthy_float_nonzero in E. contradiction. }
      unfold list_stations_filter. rewrite E.
      now destruct lat, lng. }
    split; [exact Hf|].
    unfold list_stations. now rewrite Hf.
Qed.

Lemma list_stations_zero_radius_witness :
  let gd := @Database.get_documents example_builtins in
  (0 == 0)%Q /\
  ~ is_Some (@list_stations_filter None None (Some 0%Q) (Some 0%Q) (Some 0%Q)
               !! "latitude") /\
  @list_stations example_builtins gd None None None
     (Some 0%Q) (Some 0%Q) (Some 0%Q) seeded_db
  = @list_stations example_builtins gd None None None
     (Some 0%Q) (Some 0%Q) None seeded_db.
Proof.
  intros gd.
  destruct (@list_stations_zero_radius example_builtins gd None None None
              (Some 0%Q) (Some 0%Q) (Some 0%Q) seeded_db)
    as (Hlat & _ & Hzero).
  split; [reflexivity|]. split.
  - intros Hs. apply Hlat in Hs as (_ & _ & r & [= <-] & Hr).
    now apply Hr.
  - apply (Hzero 0%Q). reflexivity.
Defined.

(* ===================================================================== *)
(** ** Result caps *)
(* ===================================================================== *)

Section CapFacts.
Context `{Builtins}.

Lemma nearby_stations_inv
    (gd : string -> filter_dict -> option Z -> M (list doc))
    (lat lng : Q) (limit : option Z) (db db' : database) (out : list doc) :
  nearby_stations gd lat lng limit db = (Ok out, db') ->
  exists (n : Z) (docs : list doc),
    Query "limit" 10 1 100 limit = Ok n /\
    gd "station" ∅ None db = (Ok docs, db') /\
    out = map serialize_doc (take (Z.to_nat n) (sorted (dist2 lat lng) docs)).
Proof.
  intros Hrun.
  destruct (Query "limit" 10 1 100 limit) as [n|e] eqn:Hq.
  - destruct (gd "station" ∅ None db) as [[docs|e] db1] eqn:Hg.
    + rewrite (nearby_stations_run gd _ _ _ _ _ _ _ Hq Hg) in Hrun.
      injection Hrun as <- <-. eauto.
    + unfold nearby_stations, mbind, M_bind, lift in Hrun.
      rewrite Hq, Hg in Hrun. discriminate.
  - rewrite (nearby_stations_refused gd _ _ _ _ _ Hq) in Hrun. discriminate.
Qed.

Lemma list_recommendations_inv (limit : option Z) (db db' : database)
    (out : list doc) :
  list_recommendations Database.get_documents limit db = (Ok out, db') ->
  exists n : Z,
    Query "limit" 20 1 100 limit = Ok n /\
    out = map serialize_doc
            (take (Z.to_nat n)
               (List.filter (doc_matches ∅) (collection db "recommendation"))).
Proof.
  unfold list_recommendations, mbind, M_bind, lift,
    Database.get_documents, find.
  destruct (Query "limit" 20 1 100 limit) as [n|e] eqn:Hq; [|discriminate].
  assert (Hn : (1 <= n <= 100)%Z)
    by (apply (Query_range "limit" 20 1 100 limit n); [lia | exact Hq]).
  simpl. destruct (filter_error ∅); [discriminate|].
  rewrite cursor_limit_positive by lia.
  intros [= <- <-]. eauto.
Qed.

Lemma capped_length (n : Z) (l : list doc) :
  (1 <= n)%Z ->
  (Z.of_nat (length (map serialize_doc (take (Z.to_nat n) l))) <= n)%Z.
Proof. intros Hn. rewrite length_map, length_take. lia. Qed.

Lemma Query_refuses (loc : string) (d lo hi m : Z) :
  ~ (lo <= m <= hi)%Z ->
  Query loc d lo hi (Some m) = Raise (RequestValidationError loc).
Proof.
  intros Hm. unfold Query.
  destruct ((lo <=? m)%Z && (m <=? hi)%Z) eqn:E; [|reflexivity].
  apply andb_true_iff in E as [E1 E2]. apply Z.leb_le in E1, E2. lia.
Qed.
End CapFacts.

(** C8. The three list-returning handlers cap their result. For
    list-stations the effective limit is the supplied one, within
    [1, 200], or 50 when none is supplied; for nearby-stations and
    list-recommendations it lies within [1, 100] (defaults 10 and 20). A
    returned list is never longer than the effective limit, and a limit
    outside the range is refused with status 422. *)
Theorem list_endpoints_capped `{Builtins}
    (get_documents : string -> filter_dict -> option Z -> M (list doc))
    (type query : option string) (lat lng radius_km : option Q)
    (qlat qlng : Q) (limit : option Z) (db db' : database) (out : list doc) :
  (list_stations Database.get_documents type query limit lat lng radius_km db
     = (Ok out, db') ->
   exists n : Z,
     Query "limit" 50 1 200 limit = Ok n /\ (1 <= n <= 200)%Z /\
     (limit = None -> n = 50%Z) /\ (forall m, limit = Some m -> n = m) /\
     (Z.of_nat (length out) <= n)%Z) /\
  (nearby_stations get_documents qlat qlng limit db = (Ok out, db') ->
   exists n : Z,
     Query "limit" 10 1 100 limit = Ok n /\ (1 <= n <= 100)%Z /\
     (limit = None -> n = 10%Z) /\ (forall m, limit = Some m -> n = m) /\
     (Z.of_nat (length out) <= n)%Z) /\
  (list_recommendations Database.get_documents limit db = (Ok out, db') ->
   exists n : Z,
     Query "limit" 20 1 100 limit = Ok n /\ (1 <= n <= 100)%Z /\
     (limit = None -> n = 20%Z) /\ (forall m, limit = Some m -> n = m) /\
     (Z.of_nat (length out) <= n)%Z) /\
  (forall m : Z, ~ (1 <= m <= 200)%Z ->
     response_status 200
       (fst (list_stations get_documents type query (Some m)
               lat lng radius_km db)) = 422%Z) /\
  (forall m : Z, ~ (1 <= m <= 100)%Z ->
     response_status 200
       (fst (nearby_stations get_documents qlat qlng (Some m) db)) = 422%Z /\
     response_status 200
       (fst (list_recommendations get_documents (Some m) db)) = 422%Z).
Proof.
  assert (Hdefault : forall d lo hi n, Query "limit" d lo hi limit = Ok n ->
            (limit = None -> n = d) /\ (forall m, limit = Some m -> n = m)).
  { intros d lo hi n Hq. split.
    - intros ->. simpl in Hq. congruence.
    - intros m ->. simpl in Hq.
      destruct ((lo <=? m)%Z && (m <=? hi)%Z); congruence. }
  split; [|split; [|split; [|split]]].
  - intros Hrun. apply list_stations_inv in Hrun as (n & Hq & _ & _ & ->).
    assert (Hn : (1 <= n <= 200)%Z)
      by (apply (Query_range "limit" 50 1 200 limit n); [lia | exact Hq]).
    exists n. destruct (Hdefault _ _ _ _ Hq) as [Hd1 Hd2].
    repeat split; try tauto; try lia. apply capped_length; lia.
  - intros Hrun. apply nearby_stations_inv in Hrun as (n & docs & Hq & _ & ->).
    assert (Hn : (1 <= n <= 100)%Z)
      by (apply (Query_range "limit" 10 1 100 limit n); [lia | exact Hq]).
    exists n. destruct (Hdefault _ _ _ _ Hq) as [Hd1 Hd2].
    repeat split; try tauto; try lia. apply capped_length; lia.
  - intros Hrun. apply list_recommendations_inv in Hrun as (n & Hq & ->).
    assert (Hn : (1 <= n <= 100)%Z)
      by (apply (Query_range "limit" 20 1 100 limit n); [lia | exact Hq]).
    exists n. destruct (Hdefault _ _ _ _ Hq) as [Hd1 Hd2].
    repeat split; try tauto; try lia. apply capped_length; lia.
  - intros m Hm.
    rewrite (list_stations_refused _ _ _ _ _ _ _ _ _
               (Query_refuses "limit" 50 1 200 m Hm)).
    reflexivity.
  - intros m Hm. split.
    + rewrite (nearby_stations_refused _ _ _ _ _ _
                 (Query_refuses "limit" 10 1 100 m Hm)).
      reflexivity.
    + unfold list_recommendations, mbind, M_bind, lift.
      rewrite (Query_refuses "limit" 20 1 100 m Hm). reflexivity.
Qed.

Lemma list_endpoints_capped_witness :
  let gd := @Database.get_documents example_builtins in
  (exists out : list doc,
     @list_stations example_builtins gd None None (Some 2%Z) None None None
       seeded_db = (Ok out, seeded_db) /\
     (Z.of_nat (length out) <= 2)%Z) /\
  (exists out : list doc,
     @nearby_stations example_builtins gd 0 0 (Some 2%Z) seeded_db
       = (Ok out, seeded_db) /\
     (Z.of_nat (length out) <= 2)%Z) /\
  (exists out : list doc,
     @list_recommendations example_builtins gd (Some 1%Z) seeded_db
       = (Ok out, seeded_db) /\
     (Z.of_nat (length out) <= 1)%Z) /\
  ~ (1 <= 201 <= 200)%Z /\
  response_status 200
    (fst (@list_stations example_builtins gd None None (Some 201%Z)
            None None None seeded_db)) = 422%Z.
Proof.
  intros gd.
  set (ser := @serialize_doc example_builtins).
  set (out1 := map ser (take 2 (collection seeded_db "station"))).
  set (out2 := map ser (take 2 (sorted (@dist2 example_builtins 0 0)
                                  (collection seeded_db "station")))).
  set (out3 := map ser (take 1 (collection seeded_db "recommendation"))).
  assert (Hrun1 : @list_stations example_builtins gd None None (Some 2%Z)
                    None None None seeded_db = (Ok out1, seeded_db))
    by compute_done.
  assert (Hrun2 : @nearby_stations example_builtins gd 0 0 (Some 2%Z)
                    seeded_db = (Ok out2, seeded_db))
    by compute_done.
  assert (Hrun3 : @list_recommendations example_builtins gd (Some 1%Z)
                    seeded_db = (Ok out3, seeded_db))
    by compute_done.
  assert (Hout : ~ (1 <= 201 <= 200)%Z) by lia.
  split; [|split; [|split; [|split]]].
  - destruct (@list_endpoints_capped example_builtins gd None None None None
                None 0%Q 0%Q (Some 2%Z) seeded_db seeded_db out1)
      as (Hs & _).
    destruct (Hs Hrun1) as (n & _ & _ & _ & Hm & Hlen).
    exists out1. split; [exact Hrun1|]. now rewrite <- (Hm 2%Z eq_refl).
  - destruct (@list_endpoints_capped example_builtins gd None None None None
                None 0%Q 0%Q (Some 2%Z) seeded_db seeded_db out2)
      as (_ & Hs & _).
    destruct (Hs Hrun2) as (n & _ & _ & _ & Hm & Hlen).
    exists out2. split; [exact Hrun2|]. now rewrite <- (Hm 2%Z eq_refl).
  - destruct (@list_endpoints_capped example_builtins gd None None None None
                None 0%Q 0%Q (Some 1%Z) seeded_db seeded_db out3)
      as (_ & _ & Hs & _).
    destruct (Hs Hrun3) as (n & _ & _ & _ & Hm & Hlen).
    exists out3. split; [exact Hrun3|]. now rewrite <- (Hm 1%Z eq_refl).
  - exact Hout.
  - destruct (@list_endpoints_capped example_builtins gd None None None None
                None 0%Q 0%Q None seeded_db seeded_db [])
      as (_ & _ & _ & Hs & _).
    exact (Hs 201%Z Hout).
Defined.

(* ===================================================================== *)
(** ** Seeding *)
(* ===================================================================== *)

Section SeedFacts.

Lemma insert_one_same (name : string) (d : doc) (db : database) :
  collection (snd (insert_one name d db)) name
    = collection db name ++ [<["_id" := VOid (hex24 (oid_clock db))]> d].
Proof. unfold insert_one, collection. simpl. now rewrite lookup_insert_eq. Qed.

Lemma insert_one_other (name name' : string) (d : doc) (db : database) :
  name ≠ name' ->
  collection (snd (insert_one name d db)) name' = collection db name'.
Proof.
  intros Hne. unfold insert_one, collection. simpl.
  now rewrite lookup_insert_ne.
Qed.

(** The loop over the samples inserts every one of them. *)
Lemma insert_each_run (name : string) (ms : list model) (k : Z)
    (db : database) :
  exists db' : database,
    insert_each Database.create_document name ms k db
      = (Ok (k + Z.of_nat (length ms))%Z, db') /\
    length (collection db' name)
      = (length (collection db name) + length ms)%nat /\
    forall name', name ≠ name' -> collection db' name' = collection db name'.
Proof.
  revert k db. induction ms as [|m ms IH]; intros k db.
  - exists db. simpl. unfold mret, M_ret.
    repeat split; [f_equal; f_equal; lia | lia].
  - simpl. unfold mbind, M_bind.
    change (Database.create_document name m db)
      with (insert_one name (model_dump m) db).
    destruct (insert_one name (model_dump m) db) as [o db1] eqn:Hins.
    assert (Ho : o = Ok (hex24 (oid_clock db)))
      by (unfold insert_one in Hins; now injection Hins as <- _).
    assert (Hdb : db1 = snd (insert_one name (model_dump m) db))
      by now rewrite Hins.
    subst o. destruct (IH (k + 1)%Z db1) as (db' & Hrun & Hlen & Hother).
    exists db'. split; [|split].
    + rewrite Hrun. f_equal. f_equal. simpl length. lia.
    + rewrite Hlen, Hdb, insert_one_same, length_app. simpl. lia.
    + intros name' Hne. rewrite (Hother name' Hne), Hdb.
      now apply insert_one_other.
Qed.

Lemma eqb_length_false {A : Type} (l : list A) :
  l ≠ [] -> Nat.eqb (length l) 0 = false.
Proof. now destruct l. Qed.

(** With both collections inhabited the seed endpoint changes nothing. *)
Lemma seed_noop (db : database) :
  collection db "station" ≠ [] ->
  collection db "recommendation" ≠ [] ->
  seed_sample_data Database.create_document db
    = (Ok {| inserted := 0 |}, db).
Proof.
  intros Hs Hr.
  unfold seed_sample_data, mbind, M_bind, count_documents, mret, M_ret.
  rewrite (eqb_length_false _ Hs). cbv beta iota zeta.
  now rewrite (eqb_length_false _ Hr).
Qed.

Lemma length_nonempty {A : Type} (l : list A) (n : nat) :
  length l = n -> (0 < n)%nat -> l ≠ [].
Proof. intros Hl Hn ->. simpl in Hl. lia. Qed.

Lemma eqb_length_nonempty {A : Type} (l : list A) :
  Nat.eqb (length l) 0 = false -> l ≠ [].
Proof. now intros E ->. Qed.

(** A call of the seed endpoint returns and leaves both collections
    inhabited. *)
Lemma seed_fills (db : database) :
  exists (k : Z) (db1 : database),
    seed_sample_data Database.create_document db
      = (Ok {| inserted := k |}, db1) /\
    k = ((if Nat.eqb (length (collection db "station")) 0 then 3 else 0) +
         (if Nat.eqb (length (collection db "recommendation")) 0
          then 2 else 0))%Z /\
    collection db1 "station" ≠ [] /\
    collection db1 "recommendation" ≠ [].
Proof.
  unfold seed_sample_data, mbind, M_bind, count_documents, mret, M_ret.
  destruct (insert_each_run "station" (map MStation sample_stations) 0 db)
    as (dbs & Hrs & Hls & Hos).
  assert (Hsr : collection dbs "recommendation" = collection db "recommendation")
    by (apply Hos; discriminate).
  destruct (Nat.eqb (length (collection db "station")) 0) eqn:Es.
  - rewrite Hrs. cbv beta iota zeta. rewrite Hsr.
    destruct (insert_each_run "recommendation"
                (map MRecommendation sample_recommendations)
                (0 + Z.of_nat (length (map MStation sample_stations))) dbs)
      as (dbr & Hrr & Hlr & Hor).
    destruct (Nat.eqb (length (collection db "recommendation")) 0) eqn:Er.
    + rewrite Hrr. eexists _, dbr.
      split; [reflexivity|]. split; [reflexivity|]. split.
      * rewrite Hor by discriminate.
        apply (length_nonempty _ _ Hls). simpl. lia.
      * apply (length_nonempty _ _ Hlr). simpl. lia.
    + eexists _, dbs. split; [reflexivity|]. split; [reflexivity|]. split.
      * apply (length_nonempty _ _ Hls). simpl. lia.
      * rewrite Hsr. now apply eqb_length_nonempty.
  - cbv beta iota zeta.
    destruct (insert_each_run "recommendation"
                (map MRecommendation sample_recommendations) 0 db)
      as (dbr & Hrr & Hlr & Hor).
    destruct (Nat.eqb (length (collection db "recommendation")) 0) eqn:Er.
    + rewrite Hrr. eexists _, dbr.
      split; [reflexivity|]. split; [reflexivity|]. split.
      * rewrite Hor by discriminate. now apply eqb_length_nonempty.
      * apply (length_nonempty _ _ Hlr). simpl. lia.
    + eexists _, db. split; [reflexivity|]. split; [reflexivity|]. split.
      * now apply eqb_length_nonempty.
      * now apply eqb_length_nonempty.
Qed.
End SeedFacts.

(** C3. From any state of the store, a call of the seed endpoint returns,
    and a second call after it inserts nothing: it returns [inserted = 0]
    and leaves the store as the first call left it. The first call inserts
    the three sample stations when the station collection is empty and the
    two sample recommendations when the recommendation collection is. *)
Theorem seed_idempotent (db : database) :
  exists (k : Z) (db1 : database),
    seed_sample_data Database.create_document db
      = (Ok {| inserted := k |}, db1) /\
    k = ((if Nat.eqb (length (collection db "station")) 0 then 3 else 0) +
         (if Nat.eqb (length (collection db "recommendation")) 0
          then 2 else 0))%Z /\
    seed_sample_data Database.create_document db1
      = (Ok {| inserted := 0 |}, db1).
Proof.
  destruct (seed_fills db) as (k & db1 & Hrun & Hk & Hs & Hr).
  exists k, db1. split; [exact Hrun|]. split; [exact Hk|].
  now apply seed_noop.
Qed.

(* ===================================================================== *)
(** ** Schema validation *)
(* ===================================================================== *)

Section ValidationFacts.
Context `{Builtins}.

Lemma check_range_Ok (loc : string) (lo hi x y : Q) :
  check_range loc lo hi x = Ok y <-> y = x /\ (lo <= x)%Q /\ (x <= hi)%Q.
Proof.
  unfold check_range. destruct (Qle_bool lo x && Qle_bool x hi) eqn:E.
  - apply andb_true_iff in E as [E1 E2]. apply Qle_bool_iff in E1, E2.
    split; [intros [= <-]; auto | intros (-> & _); reflexivity].
  - split; [discriminate|]. intros (_ & H1 & H2).
    apply Qle_bool_iff in H1, H2. rewrite H1, H2 in E. discriminate.
Qed.

Lemma check_range_outside (loc : string) (lo hi x : Q) :
  ~ ((lo <= x)%Q /\ (x <= hi)%Q) ->
  check_range loc lo hi x = Raise (RequestValidationError loc).
Proof.
  intros Hout. destruct (check_range loc lo hi x) as [y|e] eqn:E.
  - apply check_range_Ok in E as (_ & Hin). contradiction.
  - unfold check_range in *.
    destruct (Qle_bool lo x && Qle_bool x hi); congruence.
Qed.

Lemma veo_bind {A B : Type} (m : outcome A) (f : A -> outcome B) :
  validation_errors_only m ->
  (forall a, validation_errors_only (f a)) ->
  validation_errors_only (m ≫= f).
Proof.
  intros Hm Hf e. unfold mbind, outcome_bind.
  destruct m as [a|e']; [apply Hf|]. intros [= <-]. now apply Hm.
Qed.

Lemma veo_ret {A : Type} (a : A) : validation_errors_only (mret a).
Proof. intros e. discriminate. Qed.

Lemma veo_required {A : Type} (loc : string) (x : option A) :
  validation_errors_only (required loc x).
Proof. intros e. destruct x; simpl; [discriminate|]. intros [= <-]. eauto. Qed.

Lemma veo_check_range (loc : string) (lo hi x : Q) :
  validation_errors_only (check_range loc lo hi x).
Proof.
  intros e. unfold check_range.
  destruct (Qle_bool lo x && Qle_bool x hi); [discriminate|].
  intros [= <-]. eauto.
Qed.

Lemma veo_check_ge0 (loc : string) (n : Z) :
  validation_errors_only (check_ge0 loc n).
Proof.
  intros e. unfold check_ge0.
  destruct (0 <=? n)%Z; [discriminate|]. intros [= <-]. eauto.
Qed.

Lemma veo_check_url (loc : string) (u : string) :
  validation_errors_only (check_url loc u).
Proof.
  intros e. unfold check_url.
  destruct (http_url u); [discriminate|]. intros [= <-]. eauto.
Qed.

Lemma veo_optional {A : Type} (check : A -> outcome A) (x : option A) :
  (forall a, validation_errors_only (check a)) ->
  validation_errors_only (optional check x).
Proof.
  intros Hc. destruct x as [a|]; simpl; [|intros e; discriminate].
  apply veo_bind; [apply Hc | intros a'; apply veo_ret].
Qed.

(** Validation only ever fails with a request-validation error. *)
Lemma Station_validate_error (body : StationPayload) (e : exn) :
  Station_validate body = Raise e -> exists loc, e = RequestValidationError loc.
Proof.
  revert e. change (validation_errors_only (Station_validate body)).
  unfold Station_validate.
  repeat (apply veo_bind;
          [first [ apply veo_required | apply veo_check_range
                 | apply veo_optional; intros ?;
                   first [ apply veo_check_range | apply veo_check_ge0
                         | apply veo_check_url ] ]
          | intros ? ]).
  apply veo_ret.
Qed.

(** A validated station carries the body's coordinates, and they are in
    range. *)
Lemma Station_validate_coordinates (body : StationPayload) (s : Station) :
  Station_validate body = Ok s ->
  p_latitude body = Some (latitude s) /\
  p_longitude body = Some (longitude s) /\
  (-90 <= latitude s)%Q /\ (latitude s <= 90)%Q /\
  (-180 <= longitude s)%Q /\ (longitude s <= 180)%Q.
Proof.
  unfold Station_validate, mbind, outcome_bind, mret, outcome_ret, required.
  destruct (p_name body); [|discriminate].
  destruct (p_type body) as [ts|]; [|discriminate].
  destruct (StationType_of_str ts); [|discriminate].
  destruct (p_address body); [|discriminate].
  destruct (p_latitude body) as [la|]; [|discriminate].
  destruct (check_range "latitude" (-90) 90 la) as [la'|] eqn:Ela;
    [|discriminate].
  destruct (p_longitude body) as [lo|]; [|discriminate].
  destruct (check_range "longitude" (-180) 180 lo) as [lo'|] eqn:Elo;
    [|discriminate].
  apply check_range_Ok in Ela as (-> & Hla1 & Hla2).
  apply check_range_Ok in Elo as (-> & Hlo1 & Hlo2).
  destruct (optional _ (p_rating body)); [|discriminate].
  destruct (optional _ (default _ (p_review_count body))); [|discriminate].
  destruct (optional _ (p_website body)); [|discriminate].
  intros [= <-]. simpl. auto 6.
Qed.

(** Validation of the other fields does not depend on the coordinates. *)
Lemma Station_validate_with_coordinates (body : StationPayload) (s : Station)
    (la lo : Q) :
  Station_validate body = Ok s ->
  (-90 <= la)%Q -> (la <= 90)%Q -> (-180 <= lo)%Q -> (lo <= 180)%Q ->
  Station_validate (with_coordinates body la lo) =
    Ok {| name := name s; type := type s; address := address s;
          latitude := la; longitude := lo; rating := rating s;
          review_count := review_count s; phone := phone s;
          website := website s; hours := hours s; services := services s |}.
Proof.
  intros Hv Hla1 Hla2 Hlo1 Hlo2.
  assert (Ela : check_range "latitude" (-90) 90 la = Ok la)
    by (apply check_range_Ok; auto).
  assert (Elo : check_range "longitude" (-180) 180 lo = Ok lo)
    by (apply check_range_Ok; auto).
  revert Hv.
  unfold Station_validate, mbind, outcome_bind, mret, outcome_ret, required.
  simpl.
  destruct (p_name body); [|discriminate].
  destruct (p_type body) as [ts|]; [|discriminate].
  destruct (StationType_of_str ts); [|discriminate].
  destruct (p_address body); [|discriminate].
  destruct (p_latitude body) as [la0|]; [|discriminate].
  destruct (check_range "latitude" (-90) 90 la0); [|discriminate].
  destruct (p_longitude body) as [lo0|]; [|discriminate].
  destruct (check_range "longitude" (-180) 180 lo0); [|discriminate].
  rewrite Ela, Elo.
  destruct (optional _ (p_rating body)); [|discriminate].
  destruct (optional _ (default _ (p_review_count body))); [|discriminate].
  destruct (optional _ (p_website body)); [|discriminate].
  intros [= <-]. reflexivity.
Qed.

Lemma Station_validate_outside (body : StationPayload) :
  (exists la, p_latitude body = Some la /\
              ~ ((-90 <= la)%Q /\ (la <= 90)%Q)) \/
  (exists lo, p_longitude body = Some lo /\
              ~ ((-180 <= lo)%Q /\ (lo <= 180)%Q)) ->
  exists loc, Station_validate body = Raise (RequestValidationError loc).
Proof.
  intros Hout. destruct (Station_validate body) as [s|e] eqn:Hv.
  - apply Station_validate_coordinates in Hv
      as (Hla & Hlo & H1 & H2 & H3 & H4).
    destruct Hout as [(la & Ela & Hn)|(lo & Elo & Hn)]; exfalso; apply Hn.
    + rewrite Hla in Ela. injection Ela as <-. auto.
    + rewrite Hlo in Elo. injection Elo as <-. auto.
  - apply Station_validate_error in Hv as [loc ->]. eauto.
Qed.
End ValidationFacts.

(** C4. A request body whose latitude is outside [-90, 90] or whose
    longitude is outside [-180, 180] fails validation against [Station]:
    the create-station route answers 422 and the store is not touched. A
    body that validates keeps validating when its coordinates are replaced
    by any coordinates within the bounds, and the validated station carries
    them. *)
Theorem station_validation_coordinates `{Builtins}
    (create_document : string -> model -> M string)
    (body : StationPayload) (db : database) :
  ((exists la, p_latitude body = Some la /\
               ~ ((-90 <= la)%Q /\ (la <= 90)%Q)) \/
   (exists lo, p_longitude body = Some lo /\
               ~ ((-180 <= lo)%Q /\ (lo <= 180)%Q)) ->
   exists loc,
     Station_validate body = Raise (RequestValidationError loc) /\
     post_station create_document body db
       = (Raise (RequestValidationError loc), db) /\
     response_status 201 (fst (post_station create_document body db)) = 422%Z) /\
  (forall (s : Station) (la lo : Q),
     Station_validate body = Ok s ->
     (-90 <= la)%Q -> (la <= 90)%Q -> (-180 <= lo)%Q -> (lo <= 180)%Q ->
     exists s',
       Station_validate (with_coordinates body la lo) = Ok s' /\
       latitude s' = la /\ longitude s' = lo /\
       post_station create_document (with_coordinates body la lo) db
         = create_station create_document s' db).
Proof.
  split.
  - intros Hout. destruct (Station_validate_outside body Hout) as [loc Hv].
    exists loc. split; [exact Hv|].
    assert (Hpost : post_station create_document body db
                    = (Raise (RequestValidationError loc), db)).
    { unfold post_station, mbind, M_bind, lift. now rewrite Hv. }
    split; [exact Hpost|]. now rewrite Hpost.
  - intros s la lo Hv H1 H2 H3 H4.
    pose proof (Station_validate_with_coordinates body s la lo Hv H1 H2 H3 H4)
      as Hv'.
    eexists. split; [exact Hv'|]. split; [reflexivity|]. split; [reflexivity|].
    unfold post_station, mbind, M_bind, lift. now rewrite Hv'.
Qed.

Lemma station_validation_coordinates_witness :
  let cd := Database.create_document in
  let far := with_coordinates dump_yard_body (91 # 1) 0 in
  (exists la, p_latitude far = Some la /\ ~ ((-90 <= la)%Q /\ (la <= 90)%Q)) /\
  response_status 201
    (fst (@post_station example_builtins cd far empty_db)) = 422%Z /\
  (exists s, @Station_validate example_builtins dump_yard_body = Ok s) /\
  (exists s',
     @Station_validate example_builtins
       (with_coordinates dump_yard_body (-90) 180) = Ok s' /\
     latitude s' = (-90)%Q /\ longitude s' = 180%Q).
Proof.
  intros cd far.
  assert (Hfar : exists la, p_latitude far = Some la /\
                            ~ ((-90 <= la)%Q /\ (la <= 90)%Q)).
  { exists (91 # 1)%Q. split; [reflexivity|]. intros [_ Hle]. now apply Hle. }
  assert (Hok : { s | @Station_validate example_builtins dump_yard_body = Ok s })
    by (eexists; reflexivity).
  destruct Hok as [s Hs].
  split; [exact Hfar|]. split; [|split].
  - destruct (@station_validation_coordinates example_builtins cd far empty_db)
      as (Hrej & _).
    destruct (Hrej (or_introl Hfar)) as (loc & _ & _ & Hst). exact Hst.
  - exists s. exact Hs.
  - destruct (@station_validation_coordinates example_builtins cd
                dump_yard_body empty_db) as (_ & Hacc).
    destruct (Hacc s (-90)%Q 180%Q Hs) as (s' & Hv & Hla & Hlo & _);
      [discriminate | discriminate | discriminate | discriminate |].
    exists s'. auto.
Defined.

(* ===================================================================== *)
(** ** Insert failures *)
(* ===================================================================== *)

Section InsertFacts.
Context `{Builtins}.
Variable create_document : string -> model -> M string.

(** The body shared by [create_station] and [submit_feedback]: insert,
    fetch the document back by its id, serialize; any exception becomes
    a 400. *)
Lemma insert_and_fetch_raises (name : string) (m : model) (e : exn)
    (db db1 : database) :
  create_document name m db = (Raise e, db1) ->
  try_except
    (inserted_id ← create_document name m;
     oid ← lift (ObjectId inserted_id);
     doc ← find_one name oid;
     mret (serialize_doc <$> doc))
    (fun e => raise (HTTPException 400 (str_exn e))) db
  = (Raise (HTTPException 400 (str_exn e)), db1).
Proof.
  intros Hc. unfold try_except, mbind, M_bind. now rewrite Hc.
Qed.

Lemma insert_and_fetch_returns (name : string) (m : model) (id oid : string)
    (d : doc) (db db1 : database) :
  create_document name m db = (Ok id, db1) ->
  ObjectId id = Ok oid ->
  List.find (has_oid oid) (collection db1 name) = Some d ->
  try_except
    (inserted_id ← create_document name m;
     oid ← lift (ObjectId inserted_id);
     doc ← find_one name oid;
     mret (serialize_doc <$> doc))
    (fun e => raise (HTTPException 400 (str_exn e))) db
  = (Ok (Some (serialize_doc d)), db1).
Proof.
  intros Hc Ho Hf.
  unfold try_except, mbind, M_bind, lift, find_one, mret, M_ret.
  now rewrite Hc, Ho, Hf.
Qed.
End InsertFacts.

(** C7. When the insert of create-station or of submit-feedback raises an
    exception, the handler raises an [HTTPException] with status 400 whose
    detail is the string form of that exception. When the insert returns an
    id under which the collection holds a document, the handler returns
    that document, serialized, and the response has status 201. *)
Theorem insert_failure_reported `{Builtins}
    (create_document : string -> model -> M string)
    (st : Station) (fb : RecommendationFeedback) (db db1 : database)
    (e : exn) (id oid : string) (d : doc) :
  (create_document "station" (MStation st) db = (Raise e, db1) ->
   create_station create_document st db
     = (Raise (HTTPException 400 (str_exn e)), db1) /\
   response_status 201 (fst (create_station create_document st db)) = 400%Z) /\
  (create_document "recommendationfeedback" (MRecommendationFeedback fb) db
     = (Raise e, db1) ->
   submit_feedback create_document fb db
     = (Raise (HTTPException 400 (str_exn e)), db1) /\
   response_status 201 (fst (submit_feedback create_document fb db)) = 400%Z) /\
  (create_document "station" (MStation st) db = (Ok id, db1) ->
   ObjectId id = Ok oid ->
   List.find (has_oid oid) (collection db1 "station") = Some d ->
   create_station create_document st db = (Ok (Some (serialize_doc d)), db1) /\
   response_status 201 (fst (create_station create_document st db)) = 201%Z) /\
  (create_document "recommendationfeedback" (MRecommendationFeedback fb) db
     = (Ok id, db1) ->
   ObjectId id = Ok oid ->
   List.find (has_oid oid) (collection db1 "recommendationfeedback") = Some d ->
   submit_feedback create_document fb db
     = (Ok (Some (serialize_doc d)), db1) /\
   response_status 201 (fst (submit_feedback create_document fb db)) = 201%Z).
Proof.
  split; [|split; [|split]].
  - intros Hc.
    pose proof (insert_and_fetch_raises create_document _ _ _ _ _ Hc) as Hrun.
    unfold create_station. rewrite Hrun. auto.
  - intros Hc.
    pose proof (insert_and_fetch_raises create_document _ _ _ _ _ Hc) as Hrun.
    unfold submit_feedback. rewrite Hrun. auto.
  - intros Hc Ho Hf.
    pose proof (insert_and_fetch_returns create_document _ _ _ _ _ _ _ Hc Ho Hf)
      as Hrun.
    unfold create_station. rewrite Hrun. auto.
  - intros Hc Ho Hf.
    pose proof (insert_and_fetch_returns create_document _ _ _ _ _ _ _ Hc Ho Hf)
      as Hrun.
    unfold submit_feedback. rewrite Hrun. auto.
Qed.

Lemma insert_failure_reported_witness :
  let st := hd far_station sample_stations in
  let down_cd := failing_create_document "Database not available" in
  let db1 := snd (Database.create_document "station" (MStation st) seeded_db) in
  let db2 := snd (Database.create_document "recommendationfeedback"
                    (MRecommendationFeedback thumbs_up) seeded_db) in
  let id := hex24 5 in
  (@create_station example_builtins down_cd st seeded_db
     = (Raise (HTTPException 400 "Database not available"), seeded_db)) /\
  (@submit_feedback example_builtins down_cd thumbs_up seeded_db
     = (Raise (HTTPException 400 "Database not available"), seeded_db)) /\
  (@create_station example_builtins Database.create_document st seeded_db
     = (Ok (Some (@serialize_doc example_builtins
                    (<["_id" := VOid id]> (model_dump (MStation st))))), db1)) /\
  (@submit_feedback example_builtins Database.create_document thumbs_up
     seeded_db
     = (Ok (Some (@serialize_doc example_builtins
                    (<["_id" := VOid id]>
                       (model_dump (MRecommendationFeedback thumbs_up))))),
        db2)).
Proof.
  intros st down_cd db1 db2 id.
  split; [|split; [|split]].
  - destruct (@insert_failure_reported example_builtins down_cd st thumbs_up
                seeded_db seeded_db (Exception "Database not available")
                "" "" ∅) as (Hs & _).
    apply Hs. reflexivity.
  - destruct (@insert_failure_reported example_builtins down_cd st thumbs_up
                seeded_db seeded_db (Exception "Database not available")
                "" "" ∅) as (_ & Hs & _).
    apply Hs. reflexivity.
  - destruct (@insert_failure_reported example_builtins
                Database.create_document st thumbs_up seeded_db db1
                (Exception "") id id
                (<["_id" := VOid id]> (model_dump (MStation st))))
      as (_ & _ & Hs & _).
    apply Hs; compute_done.
  - destruct (@insert_failure_reported example_builtins
                Database.create_document st thumbs_up seeded_db db2
                (Exception "") id id
                (<["_id" := VOid id]>
                   (model_dump (MRecommendationFeedback thumbs_up))))
      as (_ & _ & _ & Hs).
    apply Hs; compute_done.
Defined.

(* ===================================================================== *)
(** ** Search by name or address *)
(* ===================================================================== *)

Module RegexFacts.
Import Regex.

Lemma is_meta_dot (c : ascii) : is_meta c = false -> Ascii.eqb c "."%char = false.
Proof.
  unfold is_meta, metacharacters. simpl.
  now destruct (Ascii.eqb c "."%char).
Qed.

(** A literal pattern is read as the sequence of its characters. *)
Lemma parse_literal (q : string) :
  literal q = true -> parse q = Some (literals q).
Proof.
  unfold literal, literals. induction q as [|c q IH]; simpl; [reflexivity|].
  intros Hq. apply andb_true_iff in Hq as [Hc Hq].
  apply andb_true_iff in Hc as [Hm Ha]. apply negb_true_iff in Hm.
  rewrite (IH Hq), (is_meta_dot _ Hm), Hm, Ha. reflexivity.
Qed.

(** Literal atoms match at the start of [s] when [s], lower-cased, starts
    with the lower-cased pattern. *)
Lemma match_here_literals (q s : string) :
  match_here true (literals q) s = true <->
  exists post : string, lower_str s = (lower_str q +:+ post).
Proof.
  unfold literals. revert s. induction q as [|c q IH]; intros s; simpl.
  - split; [intros _; now exists (lower_str s) | reflexivity].
  - destruct s as [|c0 s]; simpl.
    + split; [discriminate | intros [post Hp]; discriminate].
    + rewrite andb_true_iff, IH, Ascii.eqb_eq. split.
      * intros [Hc [post Hp]]. exists post. now rewrite Hc, Hp.
      * intros [post Hp]. injection Hp as Hc Hp. split; [now symmetry|].
        now exists post.
Qed.

(** Literal atoms are found in [s] when the pattern occurs in [s],
    ignoring case. *)
Lemma search_literals (q s : string) :
  search true (literals q) s = true <-> occurs_ignoring_case q s.
Proof.
  unfold occurs_ignoring_case. induction s as [|c0 s IH]; simpl.
  - rewrite orb_false_r.
    pose proof (match_here_literals q "") as Hm. simpl in Hm. rewrite Hm.
    split.
    + intros [post Hp]. now exists "", post.
    + intros (pre & post & Hp). destruct pre; [|discriminate].
      now exists post.
  - rewrite orb_true_iff, IH.
    pose proof (match_here_literals q (String c0 s)) as Hm.
    simpl in Hm. rewrite Hm. split.
    + intros [[post Hp]|(pre & post & Hp)].
      * now exists "", post.
      * exists (String (lower c0) pre), post. simpl. now rewrite Hp.
    + intros (pre & post & Hp). destruct pre as [|a pre]; simpl in Hp.
      * left. now exists post.
      * right. injection Hp as _ Hp. now exists pre, post.
Qed.

(** With the option ["i"], a literal pattern compiles to the
    case-insensitive substring search. *)
Lemma compile_literal `{Builtins} (q : string) :
  literal q = true -> compile q "i" = Ok (search true (literals q)).
Proof. intros Hq. unfold compile. now rewrite (parse_literal q Hq). Qed.
End RegexFacts.

Section SearchFacts.
Context `{Builtins}.
Import Regex RegexFacts.

(** The condition on one field, for a literal pattern and a string
    field. *)
Lemma cond_match_literal (q t : string) :
  literal q = true ->
  cond_match (FRegex q "i") (Some (VStr t)) = true <->
  occurs_ignoring_case q t.
Proof.
  intros Hq. simpl. rewrite (compile_literal q Hq). apply search_literals.
Qed.

(** A field that serializes to a string and satisfies the condition was
    that string. *)
Lemma cond_match_serialized (q t : string) (fv : option value) :
  literal q = true ->
  stringify_oid <$> fv = Some (VStr t) ->
  cond_match (FRegex q "i") fv = true ->
  occurs_ignoring_case q t.
Proof.
  intros Hq Hs Hm. destruct fv as [v|]; [|discriminate].
  destruct v; simpl in Hs; try discriminate.
  injection Hs as <-. now apply cond_match_literal.
Qed.


Lemma truthy_str_nonempty (q : string) : q ≠ "" -> truthy_str (Some q) = true.
Proof. now destruct q. Qed.
End SearchFacts.

Section QueryFacts.
Context `{Builtins}.
Import Regex RegexFacts.




End QueryFacts.




(* ===================================================================== *)
(** ** The stored document *)
(* ===================================================================== *)

Section StoredFacts.
Context `{Builtins}.

Lemma hex_digit_valid (m : N) :
  (m < 16)%N ->
  is_hex (hex_digit m) = true /\ Regex.lower (hex_digit m) = hex_digit m.
Proof.
  intros Hm. unfold hex_digit.
  assert (Hi : (N.to_nat m < 16)%nat) by lia.
  revert Hi. generalize (N.to_nat m) as i. intros i Hi.
  do 16 (destruct i as [|i]; [split; reflexivity|]). lia.
Qed.

Lemma hex_acc_valid (k : nat) (n : N) (acc : string) :
  forallb is_hex (list_ascii_of_string acc) = true ->
  Regex.lower_str acc = acc ->
  String.length (hex_acc k n acc) = (k + String.length acc)%nat /\
  forallb is_hex (list_ascii_of_string (hex_acc k n acc)) = true /\
  Regex.lower_str (hex_acc k n acc) = hex_acc k n acc.
Proof.
  revert n acc. induction k as [|k IH]; intros n acc Hhex Hlow; simpl.
  - auto.
  - destruct (hex_digit_valid (n mod 16)%N) as [Hd Hl];
      [apply N.mod_lt; discriminate|].
    destruct (IH (n / 16)%N (String (hex_digit (n mod 16)%N) acc))
      as (Hlen & Hhex' & Hlow').
    + simpl. now rewrite Hd, Hhex.
    + simpl. now rewrite Hl, Hlow.
    + split; [|auto]. rewrite Hlen. simpl. lia.
Qed.

(** The id the store hands out is accepted back by [ObjectId]. *)
Lemma ObjectId_hex24 (n : N) : ObjectId (hex24 n) = Ok (hex24 n).
Proof.
  destruct (hex_acc_valid 24 n "" eq_refl eq_refl) as (Hlen & Hhex & Hlow).
  unfold ObjectId, hex24. rewrite Hlen, Hhex, Hlow. reflexivity.
Qed.

Lemma find_app_fresh (p : doc -> bool) (l : list doc) (x : doc) :
  Forall (fun d => p d = false) l -> p x = true ->
  List.find p (l ++ [x]) = Some x.
Proof.
  intros Hl Hx. induction Hl as [|d l Hd Hl IH]; simpl.
  - now rewrite Hx.
  - now rewrite Hd.
Qed.

(** Over the store, when the next id is not yet in the collection, the
    insert-and-fetch body returns the model's fields under the new id. *)
Lemma insert_and_fetch_stored (name : string) (m : model) (db : database) :
  let new := <["_id" := VOid (hex24 (oid_clock db))]> (model_dump m) in
  Forall (fun d => has_oid (hex24 (oid_clock db)) d = false)
         (collection db name) ->
  try_except
    (inserted_id ← Database.create_document name m;
     oid ← lift (ObjectId inserted_id);
     doc ← find_one name oid;
     mret (serialize_doc <$> doc))
    (fun e => raise (HTTPException 400 (str_exn e))) db
  = (Ok (Some (serialize_doc new)),
     snd (Database.create_document name m db)).
Proof.
  intros new Hfresh.
  apply (insert_and_fetch_returns Database.create_document name m
           (hex24 (oid_clock db)) (hex24 (oid_clock db)) new).
  - reflexivity.
  - apply ObjectId_hex24.
  - unfold Database.create_document. rewrite insert_one_same.
    apply find_app_fresh; [exact Hfresh|].
    unfold has_oid, new. rewrite lookup_insert_eq. apply String.eqb_refl.
Qed.

(** Create-station over the store returns the station just stored. *)
Lemma create_station_returns_stored (st : Station) (db : database) :
  Forall (fun d => has_oid (hex24 (oid_clock db)) d = false)
         (collection db "station") ->
  create_station Database.create_document st db
  = (Ok (Some (serialize_doc
                 (<["_id" := VOid (hex24 (oid_clock db))]>
                    (model_dump (MStation st))))),
     snd (Database.create_document "station" (MStation st) db)).
Proof. apply insert_and_fetch_stored. Qed.

Lemma submit_feedback_returns_stored (fb : RecommendationFeedback)
    (db : database) :
  Forall (fun d => has_oid (hex24 (oid_clock db)) d = false)
         (collection db "recommendationfeedback") ->
  submit_feedback Database.create_document fb db
  = (Ok (Some (serialize_doc
                 (<["_id" := VOid (hex24 (oid_clock db))]>
                    (model_dump (MRecommendationFeedback fb))))),
     snd (Database.create_document "recommendationfeedback"
            (MRecommendationFeedback fb) db)).
Proof. apply insert_and_fetch_stored. Qed.
End StoredFacts.

(* ===================================================================== *)
(** ** More on [serialize_doc] *)
(* ===================================================================== *)

Section SerializeMore.
Context `{Builtins}.

Lemma stringify_oid_idemp (v : value) :
  stringify_oid (stringify_oid v) = stringify_oid v.
Proof. now destruct v. Qed.

Lemma stringify_oid_not_oid (v : value) (hex : string) :
  stringify_oid v ≠ VOid hex.
Proof. now destruct v. Qed.

Lemma serialize_doc_no_internal_id (d : doc) : serialize_doc d !! "_id" = None.
Proof.
  unfold serialize_doc. destruct (Nat.eqb (size d) 0) eqn:E.
  - apply size_zero_empty in E. subst d. apply lookup_empty.
  - rewrite lookup_fmap. destruct (d !! "_id") as [v|] eqn:Hid.
    + rewrite lookup_insert_ne by discriminate. now rewrite lookup_delete_eq.
    + now rewrite Hid.
Qed.

Lemma serialize_doc_values (d : doc) (k : string) (v : value) :
  serialize_doc d !! k = Some v -> stringify_oid v = v.
Proof.
  unfold serialize_doc. destruct (Nat.eqb (size d) 0) eqn:E.
  - apply size_zero_empty in E. subst d. now rewrite lookup_empty.
  - rewrite lookup_fmap. intros Hv.
    apply fmap_Some in Hv as (w & _ & ->). apply stringify_oid_idemp.
Qed.
End SerializeMore.

(** X1. Whatever the document, its serialization has no ["_id"] key and
    no ObjectId among its values. *)
Theorem serialize_doc_json_safe `{Builtins} (d : doc) :
  serialize_doc d !! "_id" = None /\
  map_Forall (fun _ v => forall hex, v ≠ VOid hex) (serialize_doc d).
Proof.
  split; [apply serialize_doc_no_internal_id|].
  intros k v Hv hex ->. apply serialize_doc_values in Hv. discriminate.
Qed.

(** X2. Serializing a document twice gives the same as serializing it
    once. *)
Theorem serialize_doc_idempotent `{Builtins} (d : doc) :
  serialize_doc (serialize_doc d) = serialize_doc d.
Proof.
  set (s := serialize_doc d).
  unfold serialize_doc at 1. fold s.
  destruct (Nat.eqb (size s) 0); [reflexivity|].
  unfold s at 1. rewrite serialize_doc_no_internal_id. fold s.
  apply map_eq. intros k. rewrite lookup_fmap.
  destruct (s !! k) as [v|] eqn:Hv; [|reflexivity].
  simpl. f_equal. now apply (serialize_doc_values d k).
Qed.

(** X3. The keys of the serialization: with an ["_id"], the document's
    keys with ["_id"] replaced by ["id"]; without one, the document's own
    keys, and then only ObjectId values change. *)
Theorem serialize_doc_keys `{Builtins} (d : doc) :
  match d !! "_id" with
  | Some _ => dom (serialize_doc d) = {["id"]} ∪ (dom d ∖ {["_id"]})
  | None =>
      dom (serialize_doc d) = dom d /\
      serialize_doc d = stringify_oid <$> d
  end.
Proof.
  unfold serialize_doc. destruct (Nat.eqb (size d) 0) eqn:E.
  - apply size_zero_empty in E. subst d. rewrite lookup_empty.
    split; [reflexivity|]. now rewrite fmap_empty.
  - destruct (d !! "_id") as [v|].
    + now rewrite dom_fmap_L, dom_insert_L, dom_delete_L.
    + split; [apply dom_fmap_L | reflexivity].
Qed.

(* ===================================================================== *)
(** ** More on nearby stations *)
(* ===================================================================== *)

Section SortedMore.
Context {A : Type} (key : A -> Q).




End SortedMore.

Section NearbyMore.
Context `{Builtins}.



End NearbyMore.







(* ===================================================================== *)
(** ** More on listing *)
(* ===================================================================== *)

Section ListingMore.
Context `{Builtins}.

Lemma doc_matches_empty (d : doc) : doc_matches ∅ d = true.
Proof. apply doc_matches_true. intros k e. now rewrite lookup_empty. Qed.

Lemma filter_error_empty : filter_error ∅ = None.
Proof. apply filter_error_None. intros k e. now rewrite lookup_empty. Qed.

Lemma filter_all (p : doc -> bool) (l : list doc) :
  (forall d, p d = true) -> List.filter p l = l.
Proof.
  intros Hp. induction l as [|d l IH]; simpl; [reflexivity|].
  now rewrite Hp, IH.
Qed.



(** An equality condition holds of the string itself and of an array that
    has it. *)
Lemma cond_match_eq (t : string) (fv : option value) :
  cond_match (FEq t) fv = true ->
  fv = Some (VStr t) \/ exists l, fv = Some (VStrs l) /\ In t l.
Proof.
  destruct fv as [v|]; [|discriminate].
  destruct v; simpl; try discriminate.
  - intros E. apply String.eqb_eq in E. left. now subst.
  - intros E. apply existsb_exists in E as (u & Hu & E).
    apply String.eqb_eq in E. subst u. right. eauto.
Qed.
End ListingMore.

(** X7. An empty [type] or an empty [query] is ignored: the request is
    handled exactly as if the parameter were absent. *)
Theorem list_stations_empty_strings `{Builtins}
    (get_documents : string -> filter_dict -> option Z -> M (list doc))
    (type query : option string) (limit : option Z)
    (lat lng radius_km : option Q) (db : database) :
  list_stations get_documents (Some "") query limit lat lng radius_km db
    = list_stations get_documents None query limit lat lng radius_km db /\
  list_stations get_documents type (Some "") limit lat lng radius_km db
    = list_stations get_documents type None limit lat lng radius_km db.
Proof. split; reflexivity. Qed.



(** X9. With a non-empty [type], every document list-stations returns
    over the store has that type: its ["type"] field is that string, or an
    array of strings holding it. *)
Theorem list_stations_type_filter `{Builtins}
    (t : string) (query : option string) (limit : option Z)
    (lat lng radius_km : option Q) (db db' : database) (out : list doc) :
  t ≠ "" ->
  list_stations Database.get_documents (Some t) query limit lat lng radius_km db
    = (Ok out, db') ->
  forall d, In d out ->
    d !! "type" = Some (VStr t) \/
    exists l, d !! "type" = Some (VStrs l) /\ In t l.
Proof.
  intros Ht Hrun d Hd.
  apply list_stations_inv in Hrun as (n & _ & _ & _ & ->).
  apply returned_was_selected in Hd as (d0 & -> & _ & Hm).
  rewrite doc_matches_true in Hm.
  pose proof (list_stations_filter_type (Some t) query lat lng radius_km) as Hty.
  rewrite (truthy_str_nonempty t Ht) in Hty.
  apply Hm in Hty. unfold entry_match in Hty.
  rewrite serialize_doc_lookup_other by discriminate.
  apply cond_match_eq in Hty as [-> | (l & -> & Hl)].
  - now left.
  - right. exists l. auto.
Qed.

Lemma list_stations_type_filter_witness :
  let out := [@serialize_doc example_builtins
                (<["_id" := VOid (hex24 1)]>
                   (model_dump (MStation (nth 1 sample_stations far_station))))] in
  "dump" ≠ "" /\
  @list_stations example_builtins (@Database.get_documents example_builtins)
    (Some "dump") None None None None None seeded_db = (Ok out, seeded_db) /\
  Forall (fun d => d !! "type" = Some (VStr "dump")) out.
Proof.
  intros out.
  assert (Ht : "dump" ≠ "") by discriminate.
  assert (Hrun : @list_stations example_builtins
                   (@Database.get_documents example_builtins)
                   (Some "dump") None None None None None seeded_db
                 = (Ok out, seeded_db)) by compute_done.
  split; [exact Ht|]. split; [exact Hrun|].
  apply Forall_forall. intros d Hd.
  destruct (@list_stations_type_filter example_builtins "dump" None None
              None None None seeded_db seeded_db out Ht Hrun d
              (proj1 (list_elem_of_In _ _) Hd)) as [Hs | (l & Hl & _)].
  - exact Hs.
  - exfalso. apply list_elem_of_In in Hd. destruct Hd as [<-|[]].
    vm_compute in Hl. discriminate Hl.
Defined.

(** X10. Without a filter the listing is the stored order cut at the
    limit: over the store, list-stations with no type, no query and no
    radius, and list-recommendations, return the first [limit] documents of
    their collection, serialized, and leave the store as it is. *)
Theorem unfiltered_listing `{Builtins}
    (limit : option Z) (n m : Z) (lat lng : option Q) (db : database) :
  (Query "limit" 50 1 200 limit = Ok n ->
   list_stations Database.get_documents None None limit lat lng None db
     = (Ok (map serialize_doc (take (Z.to_nat n) (collection db "station"))),
        db)) /\
  (Query "limit" 20 1 100 limit = Ok m ->
   list_recommendations Database.get_documents limit db
     = (Ok (map serialize_doc
              (take (Z.to_nat m) (collection db "recommendation"))), db)).
Proof.
  split.
  - intros Hq. rewrite (list_stations_run _ _ _ _ _ _ _ _ Hq).
    assert (Hf : list_stations_filter None None lat lng None = ∅)
      by (unfold list_stations_filter; now destruct lat, lng).
    simpl. rewrite Hf, filter_error_empty.
    now rewrite (filter_all _ _ doc_matches_empty).
  - intros Hq.
    assert (Hm : (1 <= m <= 100)%Z)
      by (apply (Query_range "limit" 20 1 100 limit m); [lia | exact Hq]).
    unfold list_recommendations, mbind, M_bind, lift,
      Database.get_documents, find.
    rewrite Hq. simpl. rewrite filter_error_empty.
    rewrite cursor_limit_positive by lia.
    now rewrite (filter_all _ _ doc_matches_empty).
Qed.

Lemma unfiltered_listing_witness :
  Query "limit" 50 1 200 (Some 2%Z) = Ok 2%Z /\
  Query "limit" 20 1 100 (Some 2%Z) = Ok 2%Z /\
  @list_stations example_builtins (@Database.get_documents example_builtins)
    None None (Some 2%Z) None None None seeded_db
    = (Ok (map (@serialize_doc example_builtins)
             (take 2 (collection seeded_db "station"))), seeded_db) /\
  @list_recommendations example_builtins
    (@Database.get_documents example_builtins) (Some 2%Z) seeded_db
    = (Ok (map (@serialize_doc example_builtins)
             (take 2 (collection seeded_db "recommendation"))), seeded_db).
Proof.
  assert (H1 : Query "limit" 50 1 200 (Some 2%Z) = Ok 2%Z) by reflexivity.
  assert (H2 : Query "limit" 20 1 100 (Some 2%Z) = Ok 2%Z) by reflexivity.
  split; [exact H1|]. split; [exact H2|].
  destruct (@unfiltered_listing example_builtins (Some 2%Z) 2%Z 2%Z None None
              seeded_db) as [Hs Hr].
  split; [exact (Hs H1) | exact (Hr H2)].
Defined.

(* ===================================================================== *)
(** ** More on inserts *)
(* ===================================================================== *)

(** X11. Create-station and submit-feedback let no exception through:
    whatever [create_document] does, the handler either returns, and the
    response has status 201, or raises an [HTTPException] with status
    400. *)
Theorem insert_routes_status `{Builtins}
    (create_document : string -> model -> M string)
    (st : Station) (fb : RecommendationFeedback) (db : database) :
  (response_status 201 (fst (create_station create_document st db)) = 201%Z /\
   (exists body, fst (create_station create_document st db) = Ok body) \/
   response_status 201 (fst (create_station create_document st db)) = 400%Z /\
   (exists detail, fst (create_station create_document st db)
                   = Raise (HTTPException 400 detail))) /\
  (response_status 201 (fst (submit_feedback create_document fb db)) = 201%Z /\
   (exists body, fst (submit_feedback create_document fb db) = Ok body) \/
   response_status 201 (fst (submit_feedback create_document fb db)) = 400%Z /\
   (exists detail, fst (submit_feedback create_document fb db)
                   = Raise (HTTPException 400 detail))).
Proof.
  assert (Hbody : forall name m,
    let run := try_except
      (inserted_id ← create_document name m;
       oid ← lift (ObjectId inserted_id);
       doc ← find_one name oid;
       mret (serialize_doc <$> doc))
      (fun e => raise (HTTPException 400 (str_exn e))) db in
    (response_status 201 (fst run) = 201%Z /\ (exists body, fst run = Ok body)) \/
    (response_status 201 (fst run) = 400%Z /\
     (exists detail, fst run = Raise (HTTPException 400 detail)))).
  { intros name m.
    unfold try_except, mbind, M_bind, lift, find_one, mret, M_ret, raise.
    destruct (create_document name m db) as [[id|e] db1]; simpl.
    - destruct (ObjectId id) as [oid|e]; simpl; eauto.
    - eauto. }
  split; apply Hbody.
Qed.



(* ===================================================================== *)
(** ** More on seeding *)
(* ===================================================================== *)

(** X13. The seed endpoint never calls [create_document] when both
    collections hold a document: whatever the helper would do, the call
    returns [inserted = 0] and the store is unchanged. *)
Theorem seed_skips_inhabited
    (create_document : string -> model -> M string) (db : database) :
  collection db "station" ≠ [] ->
  collection db "recommendation" ≠ [] ->
  seed_sample_data create_document db = (Ok {| inserted := 0 |}, db).
Proof.
  intros Hs Hr.
  unfold seed_sample_data, mbind, M_bind, count_documents, mret, M_ret.
  rewrite (eqb_length_false _ Hs). cbv beta iota zeta.
  now rewrite (eqb_length_false _ Hr).
Qed.

Lemma seed_skips_inhabited_witness :
  collection seeded_db "station" ≠ [] /\
  collection seeded_db "recommendation" ≠ [] /\
  seed_sample_data (failing_create_document "Database not available")
    seeded_db = (Ok {| inserted := 0 |}, seeded_db).
Proof.
  assert (Hs : collection seeded_db "station" ≠ []) by compute_done.
  assert (Hr : collection seeded_db "recommendation" ≠ []) by compute_done.
  split; [exact Hs|]. split; [exact Hr|].
  exact (seed_skips_inhabited _ seeded_db Hs Hr).
Defined.

(** X14. The seed endpoint does not catch insert failures: when the
    station collection is empty and the insert of the first sample raises,
    the endpoint raises that same exception, which for a plain exception
    is a 500 response and not a 400. *)
Theorem seed_propagates_failure
    (create_document : string -> model -> M string)
    (db db1 : database) (e : exn) :
  collection db "station" = [] ->
  create_document "station" (MStation (hd far_station sample_stations)) db
    = (Raise e, db1) ->
  seed_sample_data create_document db = (Raise e, db1) /\
  (forall msg, e = Exception msg ->
     response_status 200 (fst (seed_sample_data create_document db)) = 500%Z).
Proof.
  intros Hs Hc.
  assert (Hrun : seed_sample_data create_document db = (Raise e, db1)).
  { unfold seed_sample_data, mbind, M_bind, count_documents, mret, M_ret.
    rewrite Hs. cbn [length Nat.eqb map sample_stations insert_each].
    unfold mbind, M_bind. simpl hd in Hc. now rewrite Hc. }
  split; [exact Hrun|]. intros msg ->. now rewrite Hrun.
Qed.

Lemma seed_propagates_failure_witness :
  let cd := failing_create_document "Database not available" in
  collection empty_db "station" = [] /\
  cd "station" (MStation (hd far_station sample_stations)) empty_db
    = (Raise (Exception "Database not available"), empty_db) /\
  seed_sample_data cd empty_db
    = (Raise (Exception "Database not available"), empty_db) /\
  response_status 200 (fst (seed_sample_data cd empty_db)) = 500%Z.
Proof.
  intros cd.
  assert (Hs : collection empty_db "station" = []) by reflexivity.
  assert (Hc : cd "station" (MStation (hd far_station sample_stations))
                 empty_db
               = (Raise (Exception "Database not available"), empty_db))
    by reflexivity.
  split; [exact Hs|]. split; [exact Hc|].
  destruct (seed_propagates_failure cd empty_db empty_db _ Hs Hc) as [Hrun Hst].
  split; [exact Hrun | exact (Hst _ eq_refl)].
Defined.

Section SeedMore.

(** Over the store the loop appends one document per model to its
    collection and touches no other collection. *)
Lemma insert_each_appends (name : string) (ms : list model) (k : Z)
    (db : database) :
  exists (db' : database) (added : list doc),
    insert_each Database.create_document name ms k db
      = (Ok (k + Z.of_nat (length ms))%Z, db') /\
    length added = length ms /\
    collection db' name = collection db name ++ added /\
    forall name', name ≠ name' -> collection db' name' = collection db name'.
Proof.
  revert k db. induction ms as [|m ms IH]; intros k db.
  - exists db, []. simpl. unfold mret, M_ret. rewrite app_nil_r.
    repeat split; f_equal; f_equal; lia.
  - simpl. unfold mbind, M_bind.
    change (Database.create_document name m db)
      with (insert_one name (model_dump m) db).
    destruct (insert_one name (model_dump m) db) as [o db1] eqn:Hins.
    assert (Ho : o = Ok (hex24 (oid_clock db)))
      by (unfold insert_one in Hins; now injection Hins as <- _).
    assert (Hdb : db1 = snd (insert_one name (model_dump m) db))
      by now rewrite Hins.
    subst o.
    destruct (IH (k + 1)%Z db1) as (db' & added & Hrun & Hlen & Hcol & Hother).
    exists db', (<["_id" := VOid (hex24 (oid_clock db))]> (model_dump m) :: added).
    split; [|split; [|split]].
    + rewrite Hrun. f_equal. f_equal. simpl length. lia.
    + simpl. now rewrite Hlen.
    + rewrite Hcol, Hdb, insert_one_same. now rewrite <- app_assoc.
    + intros name' Hne. rewrite (Hother name' Hne), Hdb.
      now apply insert_one_other.
Qed.

Lemma only_appended (db db1 : database) :
  appended_only db db1 ->
  (forall name, collection db name `prefix_of` collection db1 name) /\
  (forall name, collection db name ≠ [] ->
     collection db1 name = collection db name) /\
  (forall name, name ≠ "station" -> name ≠ "recommendation" ->
     collection db1 name = collection db name).
Proof.
  intros Hall. split; [|split].
  - intros name. destruct (Hall name) as (added & -> & _). now exists added.
  - intros name Hne. destruct (Hall name) as (added & -> & Hnil & _).
    rewrite (Hnil Hne). apply app_nil_r.
  - intros name N1 N2. destruct (Hall name) as (added & -> & _ & Hnil).
    rewrite (Hnil N1 N2). apply app_nil_r.
Qed.
End SeedMore.

(** X15. Over the store the seed endpoint only ever appends: every
    collection keeps its documents, in order, at the front; a collection
    that already held a document is unchanged; and no collection other
    than the stations and the recommendations is touched. *)
Theorem seed_preserves_documents (db : database) :
  exists (k : Z) (db1 : database),
    seed_sample_data Database.create_document db
      = (Ok {| inserted := k |}, db1) /\
    (forall name, collection db name `prefix_of` collection db1 name) /\
    (forall name, collection db name ≠ [] ->
       collection db1 name = collection db name) /\
    (forall name, name ≠ "station" -> name ≠ "recommendation" ->
       collection db1 name = collection db name).
Proof.
  unfold seed_sample_data, mbind, M_bind, count_documents, mret, M_ret.
  destruct (insert_each_appends "station" (map MStation sample_stations) 0 db)
    as (dbs & sadd & Hrs & _ & Hcs & Hos).
  destruct (Nat.eqb (length (collection db "station")) 0) eqn:Es.
  - rewrite Hrs. cbv beta iota zeta.
    destruct (insert_each_appends "recommendation"
                (map MRecommendation sample_recommendations)
                (0 + Z.of_nat (length (map MStation sample_stations))) dbs)
      as (dbr & radd & Hrr & _ & Hcr & Hor).
    destruct (Nat.eqb (length (collection dbs "recommendation")) 0) eqn:Er.
    + rewrite Hrr. eexists _, dbr. split; [reflexivity|].
      assert (Hall : appended_only db dbr).
      { intros name. destruct (decide (name = "recommendation")) as [->|Nr].
        - exists radd. rewrite Hcr, (Hos "recommendation") by discriminate.
          split; [reflexivity|]. split; [|congruence].
          intros Hne. rewrite (Hos "recommendation") in Er by discriminate.
          now rewrite (eqb_length_false _ Hne) in Er.
        - rewrite (Hor name) by congruence.
          destruct (decide (name = "station")) as [->|Ns].
          + exists sadd. split; [exact Hcs|]. split; [|congruence].
            intros Hne. now rewrite (eqb_length_false _ Hne) in Es.
          + exists []. rewrite (Hos name) by congruence.
            now rewrite app_nil_r. }
      now apply only_appended.
    + eexists _, dbs. split; [reflexivity|].
      assert (Hall : appended_only db dbs).
      { intros name. destruct (decide (name = "station")) as [->|Ns].
        - exists sadd. split; [exact Hcs|]. split; [|congruence].
          intros Hne. now rewrite (eqb_length_false _ Hne) in Es.
        - exists []. rewrite (Hos name) by congruence. now rewrite app_nil_r. }
      now apply only_appended.
  - cbv beta iota zeta.
    destruct (insert_each_appends "recommendation"
                (map MRecommendation sample_recommendations) 0 db)
      as (dbr & radd & Hrr & _ & Hcr & Hor).
    destruct (Nat.eqb (length (collection db "recommendation")) 0) eqn:Er.
    + rewrite Hrr. eexists _, dbr. split; [reflexivity|].
      assert (Hall : appended_only db dbr).
      { intros name. destruct (decide (name = "recommendation")) as [->|Nr].
        - exists radd. split; [exact Hcr|]. split; [|congruence].
          intros Hne. now rewrite (eqb_length_false _ Hne) in Er.
        - exists []. rewrite (Hor name) by congruence. now rewrite app_nil_r. }
      now apply only_appended.
    + eexists _, db. split; [reflexivity|].
      split; [|split]; reflexivity.
Qed.

(* ===================================================================== *)
(** ** More on schema validation *)
(* ===================================================================== *)

Section ValidationMore.
Context `{Builtins}.

Lemma StationType_of_str_inv (ts : string) (t : StationType) :
  StationType_of_str ts = Some t -> StationType_str t = ts.
Proof.
  unfold StationType_of_str. intros Hf.
  apply find_some in Hf as [_ Hf]. now apply String.eqb_eq in Hf.
Qed.

Lemma StationType_str_literal (t : StationType) :
  In (StationType_str t) ["dump"; "recycling"; "ewaste"; "compost"; "hazmat"].
Proof. destruct t; simpl; auto 6. Qed.

Lemma optional_range_Ok (loc : string) (lo hi : Q) (x y : option Q) :
  optional (check_range loc lo hi) x = Ok y ->
  y = x /\ forall r, x = Some r -> (lo <= r)%Q /\ (r <= hi)%Q.
Proof.
  destruct x as [r|]; simpl.
  - unfold mbind, outcome_bind.
    destruct (check_range loc lo hi r) as [r'|] eqn:E; [|discriminate].
    apply check_range_Ok in E as (-> & Hr). intros [= <-].
    split; [reflexivity|]. now intros r0 [= <-].
  - intros [= <-]. split; [reflexivity | discriminate].
Qed.

Lemma optional_ge0_Ok (loc : string) (x y : option Z) :
  optional (check_ge0 loc) x = Ok y ->
  y = x /\ forall c, x = Some c -> (0 <= c)%Z.
Proof.
  destruct x as [c|]; simpl.
  - unfold mbind, outcome_bind, check_ge0.
    destruct (0 <=? c)%Z eqn:E; [|discriminate]. apply Z.leb_le in E.
    intros [= <-]. split; [reflexivity|]. now intros c0 [= <-].
  - intros [= <-]. split; [reflexivity | discriminate].
Qed.

Lemma optional_url_Ok (loc : string) (x y : option string) :
  optional (check_url loc) x = Ok y ->
  y = x /\ forall u, x = Some u -> http_url u = true.
Proof.
  destruct x as [u|]; simpl.
  - unfold mbind, outcome_bind, check_url.
    destruct (http_url u) eqn:E; [|discriminate].
    intros [= <-]. split; [reflexivity|]. now intros u0 [= <-].
  - intros [= <-]. split; [reflexivity | discriminate].
Qed.

(** Everything validation establishes about the fields other than the
    coordinates. *)
Lemma Station_validate_fields (body : StationPayload) (s : Station) :
  Station_validate body = Ok s ->
  p_name body = Some (name s) /\
  p_type body = Some (StationType_str (type s)) /\
  p_address body = Some (address s) /\
  rating s = p_rating body /\
  (forall r, p_rating body = Some r -> (0 <= r)%Q /\ (r <= 5)%Q) /\
  review_count s = default (Some 0%Z) (p_review_count body) /\
  (forall c, review_count s = Some c -> (0 <= c)%Z) /\
  website s = p_website body /\
  (forall u, p_website body = Some u -> http_url u = true) /\
  phone s = p_phone body /\ hours s = p_hours body /\
  services s = default (Some []) (p_services body).
Proof.
  unfold Station_validate, mbind, outcome_bind, mret, outcome_ret, required.
  destruct (p_name body); [|discriminate].
  destruct (p_type body) as [ts|]; [|discriminate].
  destruct (StationType_of_str ts) as [t|] eqn:Et; [|discriminate].
  apply StationType_of_str_inv in Et.
  destruct (p_address body); [|discriminate].
  destruct (p_latitude body) as [la|]; [|discriminate].
  destruct (check_range "latitude" (-90) 90 la); [|discriminate].
  destruct (p_longitude body) as [lo|]; [|discriminate].
  destruct (check_range "longitude" (-180) 180 lo); [|discriminate].
  destruct (optional _ (p_rating body)) as [r|] eqn:Er; [|discriminate].
  apply optional_range_Ok in Er as [-> Hr].
  destruct (optional _ (default _ (p_review_count body))) as [rc|] eqn:Ec;
    [|discriminate].
  apply optional_ge0_Ok in Ec as [-> Hc].
  destruct (optional _ (p_website body)) as [w|] eqn:Ew; [|discriminate].
  apply optional_url_Ok in Ew as [-> Hw].
  intros [= <-]. simpl. subst ts. repeat split; auto; apply Hr; auto.
Qed.
End ValidationMore.

(** X16. A station that passed validation satisfies every field
    constraint of the schema: its type is one of the five literals, its
    rating, when present, lies in [0, 5], its review count, when present,
    is not negative and is 0 when the body had none, its website passed
    the URL check, and its services are the empty list when the body had
    none. *)
Theorem Station_validate_invariant `{Builtins}
    (body : StationPayload) (s : Station) :
  Station_validate body = Ok s ->
  In (StationType_str (type s))
     ["dump"; "recycling"; "ewaste"; "compost"; "hazmat"] /\
  p_type body = Some (StationType_str (type s)) /\
  (forall r, rating s = Some r -> (0 <= r)%Q /\ (r <= 5)%Q) /\
  (forall c, review_count s = Some c -> (0 <= c)%Z) /\
  (p_review_count body = None -> review_count s = Some 0%Z) /\
  (forall u, website s = Some u -> http_url u = true) /\
  (p_services body = None -> services s = Some []).
Proof.
  intros Hv.
  destruct (Station_validate_fields body s Hv)
    as (_ & Hty & _ & Hr & Hr' & Hc & Hc' & Hw & Hw' & _ & _ & Hs).
  split; [apply StationType_str_literal|]. split; [exact Hty|].
  split; [intros r Hrs; apply Hr'; congruence|].
  split; [exact Hc'|].
  split; [intros Hn; now rewrite Hc, Hn|].
  split; [intros u Hu; apply Hw'; congruence|].
  intros Hn. now rewrite Hs, Hn.
Qed.

Lemma Station_validate_invariant_witness :
  exists s,
    @Station_validate example_builtins dump_yard_body = Ok s /\
    In (StationType_str (type s))
       ["dump"; "recycling"; "ewaste"; "compost"; "hazmat"] /\
    (forall c, review_count s = Some c -> (0 <= c)%Z).
Proof.
  assert (Hok : { s | @Station_validate example_builtins dump_yard_body = Ok s })
    by (eexists; reflexivity).
  destruct Hok as [s Hs]. exists s. split; [exact Hs|].
  destruct (@Station_validate_invariant example_builtins dump_yard_body s Hs)
    as (Hty & _ & _ & Hc & _).
  auto.
Defined.

(** X17. A body is refused, with status 422 and before anything is
    inserted, when a required field is missing, when its type is not one
    of the five literals, when its rating is outside [0, 5], when its
    review count is negative, or when its website fails the URL check. *)
Theorem Station_validate_rejects `{Builtins}
    (create_document : string -> model -> M string)
    (body : StationPayload) (db : database) :
  p_name body = None \/ p_type body = None \/ p_address body = None \/
  p_latitude body = None \/ p_longitude body = None \/
  (exists ts, p_type body = Some ts /\
     ~ In ts ["dump"; "recycling"; "ewaste"; "compost"; "hazmat"]) \/
  (exists r, p_rating body = Some r /\ ~ ((0 <= r)%Q /\ (r <= 5)%Q)) \/
  (exists c, p_review_count body = Some (Some c) /\ (c < 0)%Z) \/
  (exists u, p_website body = Some u /\ http_url u = false) ->
  exists loc,
    Station_validate body = Raise (RequestValidationError loc) /\
    post_station create_document body db
      = (Raise (RequestValidationError loc), db) /\
    response_status 201 (fst (post_station create_document body db)) = 422%Z.
Proof.
  intros Hbad.
  assert (Hv : exists loc,
            Station_validate body = Raise (RequestValidationError loc)).
  { destruct (Station_validate body) as [s|e] eqn:Hv.
    - exfalso.
      destruct (Station_validate_coordinates body s Hv) as (Hla & Hlo & _).
      destruct (Station_validate_fields body s Hv)
        as (Hn & Hty & Ha & Hr & Hr' & Hc & Hc' & Hw & Hw' & _).
      destruct Hbad as [E|[E|[E|[E|[E|[E|[E|[E|E]]]]]]]]; try congruence.
      + destruct E as (ts & Hts & Hnot). apply Hnot.
        assert (ts = StationType_str (type s)) as -> by congruence.
        apply StationType_str_literal.
      + destruct E as (r & Hpr & Hnot). apply Hnot. now apply Hr'.
      + destruct E as (c & Hpc & Hneg). rewrite Hpc in Hc. simpl in Hc.
        apply Hc' in Hc. lia.
      + destruct E as (u & Hu & Hf). apply Hw' in Hu. congruence.
    - apply Station_validate_error in Hv as [loc ->]. eauto. }
  destruct Hv as [loc Hv]. exists loc. split; [exact Hv|].
  assert (Hpost : post_station create_document body db
                  = (Raise (RequestValidationError loc), db)).
  { unfold post_station, mbind, M_bind, lift. now rewrite Hv. }
  split; [exact Hpost|]. now rewrite Hpost.
Qed.

Lemma Station_validate_rejects_witness :
  let body :=
    {| p_name := Some "Landfill"; p_type := Some "landfill";
       p_address := Some "1 Hill Rd"; p_latitude := Some 0%Q;
       p_longitude := Some 0%Q; p_rating := None; p_review_count := None;
       p_phone := None; p_website := None; p_hours := None;
       p_services := None |} in
  ~ In "landfill" ["dump"; "recycling"; "ewaste"; "compost"; "hazmat"] /\
  response_status 201
    (fst (@post_station example_builtins Database.create_document body
            empty_db)) = 422%Z /\
  snd (@post_station example_builtins Database.create_document body empty_db)
    = empty_db.
Proof.
  intros body.
  assert (Hnot : ~ In "landfill"
                      ["dump"; "recycling"; "ewaste"; "compost"; "hazmat"]).
  { simpl. intros [E|[E|[E|[E|[E|[]]]]]]; discriminate. }
  split; [exact Hnot|].
  destruct (@Station_validate_rejects example_builtins
              Database.create_document body empty_db) as (loc & _ & Hp & Hst).
  { do 5 right. left. exists "landfill". split; [reflexivity | exact Hnot]. }
  split; [exact Hst|]. now rewrite Hp.
Defined.

Section FeedbackFacts.
Context `{Builtins}.

Lemma FeedbackAction_of_str_inv (s : string) (a : FeedbackAction) :
  FeedbackAction_of_str s = Some a -> FeedbackAction_str a = s.
Proof.
  unfold FeedbackAction_of_str. intros Hf.
  apply find_some in Hf as [_ Hf]. now apply String.eqb_eq in Hf.
Qed.

Lemma FeedbackAction_of_str_str (a : FeedbackAction) :
  FeedbackAction_of_str (FeedbackAction_str a) = Some a.
Proof. now destruct a. Qed.

Lemma RecommendationFeedback_validate_error (p : FeedbackPayload) (e : exn) :
  RecommendationFeedback_validate p = Raise e ->
  exists loc, e = RequestValidationError loc.
Proof.
  revert e. change (validation_errors_only (RecommendationFeedback_validate p)).
  unfold RecommendationFeedback_validate.
  repeat (apply veo_bind; [apply veo_required | intros ?]).
  apply veo_ret.
Qed.
End FeedbackFacts.

(** X18. A feedback body passes validation exactly when it has an item id
    and an action that is ["up"] or ["down"]; the validated feedback
    carries the body's fields. Any other body is refused with status 422
    before anything is inserted. *)
Theorem RecommendationFeedback_validate_spec `{Builtins}
    (create_document : string -> model -> M string)
    (p : FeedbackPayload) (db : database) :
  (forall f : RecommendationFeedback,
     RecommendationFeedback_validate p = Ok f <->
     fp_item_id p = Some (item_id f) /\
     fp_action p = Some (FeedbackAction_str (action f)) /\
     reason f = fp_reason p /\ user_id f = fp_user_id p) /\
  (fp_item_id p = None \/ fp_action p = None \/
   (exists s, fp_action p = Some s /\ ~ In s ["up"; "down"]) ->
   exists loc,
     post_feedback create_document p db
       = (Raise (RequestValidationError loc), db) /\
     response_status 201 (fst (post_feedback create_document p db)) = 422%Z).
Proof.
  assert (Hspec : forall f : RecommendationFeedback,
     RecommendationFeedback_validate p = Ok f <->
     fp_item_id p = Some (item_id f) /\
     fp_action p = Some (FeedbackAction_str (action f)) /\
     reason f = fp_reason p /\ user_id f = fp_user_id p).
  { intros f. unfold RecommendationFeedback_validate, mbind, outcome_bind,
      mret, outcome_ret, required. split.
    - destruct (fp_item_id p); [|discriminate].
      destruct (fp_action p) as [act|]; [|discriminate].
      destruct (FeedbackAction_of_str act) as [a|] eqn:Ea; [|discriminate].
      apply FeedbackAction_of_str_inv in Ea. intros [= <-]. simpl.
      now subst act.
    - intros (Hi & Ha & Hr & Hu). rewrite Hi, Ha, FeedbackAction_of_str_str.
      destruct f. simpl in *. now subst. }
  split; [exact Hspec|].
  intros Hbad.
  destruct (RecommendationFeedback_validate p) as [f|e] eqn:Hv.
  - exfalso. destruct (proj1 (Hspec f) eq_refl) as (Hi & Ha & _).
    destruct Hbad as [E|[E|(s & Hs & Hnot)]]; try congruence.
    apply Hnot. assert (s = FeedbackAction_str (action f)) as -> by congruence.
    destruct (action f); simpl; auto.
  - destruct (RecommendationFeedback_validate_error p e Hv) as [loc ->].
    exists loc.
    assert (Hpost : post_feedback create_document p db
                    = (Raise (RequestValidationError loc), db)).
    { unfold post_feedback, mbind, M_bind, lift. now rewrite Hv. }
    split; [exact Hpost|]. now rewrite Hpost.
Qed.

Lemma RecommendationFeedback_validate_spec_witness :
  let good := {| fp_item_id := Some "000000000000000000000003";
                 fp_action := Some "up"; fp_reason := None;
                 fp_user_id := None |} in
  let bad := {| fp_item_id := Some "000000000000000000000003";
                fp_action := Some "sideways"; fp_reason := None;
                fp_user_id := None |} in
  RecommendationFeedback_validate good = Ok thumbs_up /\
  ~ In "sideways" ["up"; "down"] /\
  response_status 201
    (fst (@post_feedback example_builtins Database.create_document bad
            empty_db)) = 422%Z.
Proof.
  intros good bad.
  assert (Hnot : ~ In "sideways" ["up"; "down"]).
  { simpl. intros [E|[E|[]]]; discriminate. }
  split; [|split; [exact Hnot|]].
  - destruct (@RecommendationFeedback_validate_spec example_builtins
                Database.create_document good empty_db) as [Hspec _].
    apply Hspec. repeat split.
  - destruct (@RecommendationFeedback_validate_spec example_builtins
                Database.create_document bad empty_db) as [_ Hrej].
    destruct Hrej as (loc & _ & Hst); [|exact Hst].
    right. right. exists "sideways". split; [reflexivity | exact Hnot].
Defined.



(* ===================================================================== *)
(** ** [PyObjectId.validate] *)
(* ===================================================================== *)

Section ObjectIdFacts.
Context `{Builtins}.






End ObjectIdFacts.



(* ===================================================================== *)
(** ** Creating, then listing *)
(* ===================================================================== *)

(** X21. Over the store, when the next id is not yet used in the station
    collection, create-station returns the new station under that id, with
    the coordinates that were submitted; and a listing without filter
    whose limit exceeds the number of stations held before is then the
    previous stations followed by the new one. *)
Theorem created_station_is_listed `{Builtins}
    (st : Station) (limit : option Z) (n : Z) (db : database) :
  let id := hex24 (oid_clock db) in
  let new := <["_id" := VOid id]> (model_dump (MStation st)) in
  let db1 := snd (Database.create_document "station" (MStation st) db) in
  Forall (fun d => has_oid id d = false) (collection db "station") ->
  Query "limit" 50 1 200 limit = Ok n ->
  (Z.of_nat (length (collection db "station")) < n)%Z ->
  create_station Database.create_document st db
    = (Ok (Some (serialize_doc new)), db1) /\
  serialize_doc new !! "id" = Some (VStr id) /\
  coordinates (serialize_doc new) = Some (latitude st, longitude st) /\
  list_stations Database.get_documents None None limit None None None db1
    = (Ok (map serialize_doc (collection db "station") ++ [serialize_doc new]),
       db1).
Proof.
  intros id new db1 Hfresh Hq Hlen.
  assert (Hid : new !! "_id" = Some (VOid id))
    by (unfold new; apply lookup_insert_eq).
  split; [now apply create_station_returns_stored|].
  split.
  { unfold serialize_doc.
    destruct (Nat.eqb (size new) 0) eqn:E.
    - apply size_zero_empty in E. rewrite E in Hid.
      now rewrite lookup_empty in Hid.
    - rewrite Hid, lookup_fmap. now rewrite lookup_insert_eq. }
  split.
  { apply serialize_doc_coordinates. unfold coordinates, new. simpl.
    now simplify_map_eq. }
  assert (Hrun := list_stations_run None None limit n None None None db1 Hq).
  simpl in Hrun. rewrite Hrun.
  change (list_stations_filter None None None None None) with (∅ : filter_dict).
  rewrite filter_error_empty, (filter_all _ _ doc_matches_empty).
  unfold db1, Database.create_document. rewrite insert_one_same. fold id new.
  rewrite take_ge by (rewrite length_app; simpl; lia).
  now rewrite map_app.
Qed.

Lemma created_station_is_listed_witness :
  let st := hd far_station sample_stations in
  let id := hex24 (oid_clock seeded_db) in
  let new := <["_id" := VOid id]> (model_dump (MStation st)) in
  let db1 := snd (Database.create_document "station" (MStation st) seeded_db) in
  Forall (fun d => has_oid id d = false) (collection seeded_db "station") /\
  Query "limit" 50 1 200 None = Ok 50%Z /\
  (Z.of_nat (length (collection seeded_db "station")) < 50)%Z /\
  @create_station example_builtins Database.create_document st seeded_db
    = (Ok (Some (@serialize_doc example_builtins new)), db1) /\
  @list_stations example_builtins (@Database.get_documents example_builtins)
    None None None None None None db1
    = (Ok (map (@serialize_doc example_builtins)
             (collection seeded_db "station")
           ++ [@serialize_doc example_builtins new]), db1).
Proof.
  intros st id new db1.
  assert (Hfresh : Forall (fun d => has_oid id d = false)
                     (collection seeded_db "station")) by compute_done.
  assert (Hq : Query "limit" 50 1 200 None = Ok 50%Z) by reflexivity.
  assert (Hlen : (Z.of_nat (length (collection seeded_db "station")) < 50)%Z)
    by compute_done.
  split; [exact Hfresh|]. split; [exact Hq|]. split; [exact Hlen|].
  destruct (@created_station_is_listed example_builtins st None 50%Z seeded_db
              Hfresh Hq Hlen) as (Hc & _ & _ & Hl).
  split; [exact Hc | exact Hl].
Defined.

(* ===================================================================== *)
(** ** The diagnostic route *)
(* ===================================================================== *)




